(** * Auction valuation server: a shallow embedding and its properties

    The repository holds two revisions of one Express program.  Both list the
    open loan auctions of a DeFiChain node, price the loan and the collateral
    of every batch in DUSD through pool pairs, and answer
    [GET /get-auction-list/:limit] with the batches whose margin is large
    enough.

    - The revision stored behind [src/.eslintrc.js] gets the highest bid through
      [getHighestBidSoFar], filters on the margin alone and sorts the rows. It
      is embedded in module [Loose].
    - The revision in [src/unnamed/part_000] fetches the vault in the handler,
      filters on margin, difference and starting bid, computes a maximal
      price, and does not sort.  It is embedded in module [Strict].

    [getAvailableAuctions], [getPriceInDUSD] and [getRewardPrice] are the same
    text in both revisions and are embedded once.

    Modelling decisions, each repeated where it applies:
    - an [async] function is a function into [result]: [Ok v] is a promise
      fulfilled with [v], [Throw e] a rejected promise or a thrown exception;
    - the node is a snapshot: the three RPC calls the program uses are the
      fields of a [Client] record of functions, so one request sees one
      answer per query;
    - [logError], [wait] (which is not awaited) and the rendering of numbers as
      strings in the final [map] have no influence on which rows are returned
      and are left out, except that the final [map] of [Strict] can throw and
      that is kept; module [Logged] gives, beside their results, the entries
      of the three functions that catch an error themselves;
    - bignumber.js is not part of the repository; module [BigNumber] models the
      values and the methods the program calls. *)

From Stdlib Require Import ZArith QArith Qreduction List String Ascii Bool Lia.
From Stdlib Require Import Sorting.Sorted Sorting.Permutation.
From Stdlib Require Import DecimalString.
Import ListNotations.

Local Open Scope Z_scope.

(** ** JavaScript strings *)

Module Js.

(** [s.split(sep)] for a one-character separator: never empty. *)
Fixpoint split (sep : ascii) (s : string) : list string :=
  match s with
  | EmptyString => [EmptyString]
  | String c r =>
      if Ascii.eqb c sep then EmptyString :: split sep r
      else match split sep r with
           | h :: t => String c h :: t
           | [] => [String c EmptyString]
           end
  end.

(** [s.includes(sub)]. *)
Definition includes (s sub : string) : bool :=
  match String.index 0 sub s with
  | Some _ => true
  | None => false
  end.

(** A number in a template literal, for integers. *)
Definition ofInt (z : Z) : string := NilZero.string_of_int (Z.to_int z).

(** A string-or-undefined in a template literal. *)
Definition template (v : option string) : string :=
  match v with
  | Some s => s
  | None => "undefined"%string
  end.

(** [v === 'lit'] for a string-or-undefined [v]. *)
Definition strictEq (v : option string) (lit : string) : bool :=
  match v with
  | Some s => String.eqb s lit
  | None => false
  end.

(** [xs.sort(compareFn)].  The language fixes the result for a consistent
    [compareFn]: the stable arrangement in which [compareFn a b <= 0] for
    [a] before [b].  Insertion from the right computes it. *)
Section Sort.

Context {A : Type} (compareFn : A -> A -> Z).

Fixpoint insert (x : A) (xs : list A) : list A :=
  match xs with
  | [] => [x]
  | y :: ys => if compareFn x y <=? 0 then x :: xs else y :: insert x ys
  end.

Definition sort (xs : list A) : list A := fold_right insert [] xs.

End Sort.

(** [xs.reverse()]. *)
Definition reverse {A : Type} (xs : list A) : list A := rev xs.

End Js.

(** ** bignumber.js

    A BigNumber is a finite decimal, an infinity or NaN.  Finite values are
    kept as reduced rationals, so equal numbers are equal terms.  Addition,
    subtraction and multiplication are exact; division rounds to
    [DECIMAL_PLACES] = 20 places with [ROUND_HALF_UP], the library's defaults,
    which the program does not change.  The sign that the library keeps on a
    zero is not modelled, and neither is its exponent range. *)

Module BigNumber.

Inductive t : Type :=
| Fin (q : Q)
| Inf (negative : bool)
| NaN.

Definition fin (q : Q) : t := Fin (Qred q).

Definition ofZ (z : Z) : t := Fin (inject_Z z).

Definition zero : t := ofZ 0.

Definition isZeroQ (q : Q) : bool := Qnum q =? 0.

Definition isNegQ (q : Q) : bool := Qnum q <? 0.

Definition DECIMAL_PLACES : Z := 20.

(** Nearest multiple of [10^-20], ties away from zero. *)
Definition roundQ (q : Q) : Q :=
  let n := Z.abs (Qnum q) * 10 ^ DECIMAL_PLACES in
  let d := Zpos (Qden q) in
  let m := (2 * n + d) / (2 * d) in
  Qmake (if isNegQ q then - m else m) (Z.to_pos (10 ^ DECIMAL_PLACES)).

Definition plus (x y : t) : t :=
  match x, y with
  | NaN, _ | _, NaN => NaN
  | Inf a, Inf b => if Bool.eqb a b then Inf a else NaN
  | Inf a, Fin _ => Inf a
  | Fin _, Inf b => Inf b
  | Fin p, Fin q => fin (p + q)
  end.

Definition negated (x : t) : t :=
  match x with
  | NaN => NaN
  | Inf a => Inf (negb a)
  | Fin p => fin (- p)
  end.

Definition minus (x y : t) : t := plus x (negated y).

Definition multipliedBy (x y : t) : t :=
  match x, y with
  | NaN, _ | _, NaN => NaN
  | Inf a, Inf b => Inf (xorb a b)
  | Inf a, Fin q => if isZeroQ q then NaN else Inf (xorb a (isNegQ q))
  | Fin p, Inf b => if isZeroQ p then NaN else Inf (xorb (isNegQ p) b)
  | Fin p, Fin q => fin (p * q)
  end.

Definition dividedBy (x y : t) : t :=
  match x, y with
  | NaN, _ | _, NaN => NaN
  | Inf _, Inf _ => NaN
  | Inf a, Fin q => Inf (xorb a (isNegQ q))
  | Fin _, Inf _ => zero
  | Fin p, Fin q =>
      if isZeroQ q then (if isZeroQ p then NaN else Inf (isNegQ p))
      else if isZeroQ p then zero
      else fin (roundQ (p / q))
  end.

(** [x.comparedTo(y)]: [None] is the library's [null], for NaN. *)
Definition comparedTo (x y : t) : option comparison :=
  match x, y with
  | NaN, _ | _, NaN => None
  | Inf a, Inf b => Some (if a then (if b then Eq else Lt) else (if b then Gt else Eq))
  | Inf a, Fin _ => Some (if a then Lt else Gt)
  | Fin _, Inf b => Some (if b then Gt else Lt)
  | Fin p, Fin q => Some (p ?= q)%Q
  end.

Definition isGreaterThan (x y : t) : bool :=
  match comparedTo x y with Some Gt => true | _ => false end.

Definition isGreaterThanOrEqualTo (x y : t) : bool :=
  match comparedTo x y with Some Gt | Some Eq => true | _ => false end.

Definition isLessThan (x y : t) : bool :=
  match comparedTo x y with Some Lt => true | _ => false end.

(** *** The constructor on strings

    The decimal grammar of the library: an optional minus sign; digits with
    an optional point and fraction, or a point and a non-empty fraction; an
    optional exponent, [e] or [E], an optional sign and digits.  Also the
    literals [Infinity] and [NaN] with an optional minus sign.  Every other
    string is NaN here; the library also accepts surrounding blanks, a
    leading plus sign and the prefixes [0x], [0b], [0o]. *)

Definition isDigit (c : ascii) : bool :=
  let n := nat_of_ascii c in (48 <=? n)%nat && (n <=? 57)%nat.

Fixpoint digits (acc : Z) (s : string) : option Z :=
  match s with
  | EmptyString => Some acc
  | String c r =>
      if isDigit c
      then digits (10 * acc + Z.of_nat (nat_of_ascii c - 48)) r
      else None
  end.

(** The text before the first character satisfying [p], and the text after
    it when there is one. *)
Fixpoint cut (p : ascii -> bool) (s : string) : string * option string :=
  match s with
  | EmptyString => (EmptyString, None)
  | String c r =>
      if p c then (EmptyString, Some r)
      else let '(a, b) := cut p r in (String c a, b)
  end.

Definition isEmpty (s : string) : bool :=
  match s with EmptyString => true | _ => false end.

Definition mantissa (s : string) : option Q :=
  let '(ip, fp) := cut (Ascii.eqb ".") s in
  match fp with
  | None =>
      if isEmpty ip then None
      else option_map inject_Z (digits 0 ip)
  | Some f =>
      if isEmpty ip && isEmpty f then None
      else
        match digits 0 ip with
        | None => None
        | Some i =>
            match digits i f with
            | None => None
            | Some n => Some (Qmake n (Z.to_pos (10 ^ Z.of_nat (String.length f))))
            end
        end
  end.

Definition exponent (s : string) : option Z :=
  match s with
  | EmptyString => None
  | String c r =>
      if Ascii.eqb c "-" then
        (if isEmpty r then None else option_map Z.opp (digits 0 r))
      else if Ascii.eqb c "+" then
        (if isEmpty r then None else digits 0 r)
      else digits 0 s
  end.

Definition scale (q : Q) (e : Z) : Q :=
  if e <? 0 then q / inject_Z (10 ^ (- e)) else q * inject_Z (10 ^ e).

Definition unsigned (s : string) : option Q :=
  let '(m, e) := cut (fun c => Ascii.eqb c "e" || Ascii.eqb c "E") s in
  match mantissa m, e with
  | Some q, None => Some q
  | Some q, Some es => option_map (scale q) (exponent es)
  | None, _ => None
  end.

Definition ofString (s : string) : t :=
  let '(neg, body) :=
    match s with
    | String "-" r => (true, r)
    | _ => (false, s)
    end in
  if String.eqb body "Infinity" then Inf neg
  else match unsigned body with
       | Some q => fin (if neg then - q else q)
       | None => NaN
       end.

End BigNumber.

(** ** JavaScript values that reach a BigNumber method *)

Inductive JsValue : Type :=
| JUndefined
| JNull
| JString (s : string)
| JNumber (z : Z)
| JBig (b : BigNumber.t).

(** [new BigNumber(v)], which every method applies to its argument. *)
Definition toBig (v : JsValue) : BigNumber.t :=
  match v with
  | JBig b => b
  | JString s => BigNumber.ofString s
  | JNumber z => BigNumber.ofZ z
  | JUndefined => BigNumber.ofString "undefined"
  | JNull => BigNumber.ofString "null"
  end.

(** ** Promises and exceptions *)

Record Error : Type := mkError { message : string }.

Inductive result (A : Type) : Type :=
| Ok (a : A)
| Throw (e : Error).

Arguments Ok {A} a.
Arguments Throw {A} e.

Definition bind {A B : Type} (m : result A) (k : A -> result B) : result B :=
  match m with
  | Ok a => k a
  | Throw e => Throw e
  end.

Notation "x <- m ;; k" := (bind m (fun x => k))
  (at level 61, m at next level, right associativity).

(** [try { body } catch (error) { handler }]. *)
Definition tryCatch {A : Type} (body : result A) (handler : Error -> result A) : result A :=
  match body with
  | Ok a => Ok a
  | Throw e => handler e
  end.

(** [await Promise.all(promises)].  When several promises reject, the
    program only sees that one did; the model reports the first in list
    order. *)
Fixpoint promiseAll {A : Type} (promises : list (result A)) : result (list A) :=
  match promises with
  | [] => Ok []
  | p :: rest =>
      match p, promiseAll rest with
      | Ok a, Ok l => Ok (a :: l)
      | Throw e, _ => Throw e
      | Ok _, Throw e => Throw e
      end
  end.

Definition TypeError (msg : string) : Error := mkError msg.

(** [recv.multipliedBy(arg)] where [recv] may be anything: calling a method
    on [undefined], [null] or a value that has no such method throws. *)
Definition callMultipliedBy (recv arg : JsValue) : result BigNumber.t :=
  match recv with
  | JBig b => Ok (BigNumber.multipliedBy b (toBig arg))
  | JUndefined =>
      Throw (TypeError "Cannot read properties of undefined (reading 'multipliedBy')")
  | JNull =>
      Throw (TypeError "Cannot read properties of null (reading 'multipliedBy')")
  | _ => Throw (TypeError "multipliedBy is not a function")
  end.

(** ** The node *)

Module HighestBid.
Record t : Type := make { owner : string; amount : string }.
End HighestBid.

Record Batch : Type := mkBatch {
  index : Z;
  collaterals : list string;
  loan : string;
  highestBid : option HighestBid.t
}.

(** An element of the answer of [listAuctions]. *)
Record VaultLiquidation : Type := mkVaultLiquidation {
  vaultId : string;
  liquidationHeight : Z;
  batches : list Batch
}.

(** The answer of [getVault]: an active vault has neither field. *)
Record Vault : Type := mkVault {
  vaultBatches : option (list Batch);
  vaultLiquidationHeight : option Z
}.

(** One pool of the object [getPoolPair] answers with.  A ratio is a
    BigNumber, or the string the node sends for an empty reserve. *)
Record PoolPairInfo : Type := mkPoolPairInfo {
  reserveA_reserveB : JsValue;
  reserveB_reserveA : JsValue
}.

(** [Object.entries] of the answer of [getPoolPair]. *)
Definition PoolPairsResult : Type := list (string * PoolPairInfo).

Record Client : Type := mkClient {
  listAuctions : option Z -> result (list VaultLiquidation);
  getVault : string -> result Vault;
  getPoolPair : string -> result PoolPairsResult
}.

(** A batch with the id of its vault, as [getAvailableAuctions] builds it. *)
Record Auction : Type := mkAuction {
  auctionVaultId : string;
  auctionBatch : Batch
}.

(** The request: [parseInt(req.params.limit, 10)], [None] for NaN, and
    [req.query.minMarginPercentage]. *)
Record Request : Type := mkRequest {
  limit : option Z;
  minMarginPercentage : option string
}.

Inductive Response (Row : Type) : Type :=
| Json (rows : list Row)
| Failure (status : Z) (body : string).

Arguments Json {Row} rows.
Arguments Failure {Row} status body.

(** [const [x] = xs]: the first element or [undefined]. *)
Definition first (xs : list JsValue) : JsValue := hd JUndefined xs.

(** An element of the array [s.split('@')], or [undefined]. *)
Definition part (parts : list string) (i : nat) : JsValue :=
  match nth_error parts i with
  | Some s => JString s
  | None => JUndefined
  end.

(** A price or [null] as the argument of a BigNumber method. *)
Definition priceValue (price : option BigNumber.t) : JsValue :=
  match price with
  | Some b => JBig b
  | None => JNull
  end.

(** ** Code shared by the two revisions *)

Section Shared.

Variable client : Client.

Definition getAvailableAuctions (limit : option Z) : result (list Auction) :=
  availableAuctions <- listAuctions client limit ;;
  Ok (fold_left
        (fun acc v =>
           let transformedBatches := map (fun batch => mkAuction (vaultId v) batch) (batches v) in
           acc ++ transformedBatches)
        availableAuctions []).

(** The [catch] block of [getPriceInDUSD]. *)
Definition getPriceInDUSD_catch (amount : JsValue) (symbol : option string) (error : Error)
  : result (option BigNumber.t) :=
  if Js.includes (message error) "Pool not found" then
    pairs <- promiseAll [ getPoolPair client (Js.template symbol ++ "-DFI");
                          getPoolPair client "DUSD-DFI" ] ;;
    let firstPair := nth 0 pairs [] in
    let secondPair := nth 1 pairs [] in
    let firstRate := first (map (fun e => reserveB_reserveA (snd e)) firstPair) in
    let secondRate := first (map (fun e => reserveA_reserveB (snd e)) secondPair) in
    p <- callMultipliedBy firstRate amount ;;
    Ok (Some (BigNumber.multipliedBy p (toBig secondRate)))
  else Ok None.

Definition getPriceInDUSD (amount : JsValue) (symbol : option string)
  : result (option BigNumber.t) :=
  tryCatch
    (if Js.strictEq symbol "DFI" then
       poolPair <- getPoolPair client "DUSD-DFI" ;;
       let rate := first (map (fun e => reserveA_reserveB (snd e)) poolPair) in
       p <- callMultipliedBy rate amount ;;
       Ok (Some p)
     else
       poolPair <- getPoolPair client (Js.template symbol ++ "-DUSD") ;;
       let rate := first (map (fun e => reserveB_reserveA (snd e)) poolPair) in
       p <- callMultipliedBy rate amount ;;
       Ok (Some p))
    (getPriceInDUSD_catch amount symbol).

(** The price of one collateral string. *)
Definition collateralPrice (collateral : string) : result (option BigNumber.t) :=
  let parts := Js.split "@" collateral in
  getPriceInDUSD (part parts 0) (nth_error parts 1).

Definition getRewardPrice (collaterals : list string) : result BigNumber.t :=
  prices <- promiseAll (map collateralPrice collaterals) ;;
  Ok (fold_left (fun sum price => BigNumber.plus sum (toBig (priceValue price)))
        prices (toBig (JNumber 0))).

(** [const margin = diff.dividedBy(startingBid).multipliedBy(100)]. *)
Definition marginOf (diff startingBid : BigNumber.t) : BigNumber.t :=
  BigNumber.multipliedBy (BigNumber.dividedBy diff startingBid) (toBig (JNumber 100)).

(** [const { minMarginPercentage = 0 } = req.query]. *)
Definition minMarginOf (req : Request) : JsValue :=
  match minMarginPercentage req with
  | Some s => JString s
  | None => JNumber 0
  end.

Definition auctionUrl (vault : string) (batchIndex : Z) : string :=
  ("https://defiscan.live/vaults/" ++ vault ++ "/auctions/" ++ Js.ofInt batchIndex)%string.

(** The [for] loop of the handler: [body] is one iteration, which throws,
    pushes a row or pushes nothing. *)
Fixpoint forLoop {Row : Type} (body : Auction -> result (option Row))
    (availableAuctions : list Auction) (rows : list Row) : result (list Row) :=
  match availableAuctions with
  | [] => Ok rows
  | auction :: rest =>
      pushed <- body auction ;;
      forLoop body rest (match pushed with Some row => rows ++ [row] | None => rows end)
  end.

(** [vault.batches?.[batchIndex]?.highestBid]. *)
Definition highestBidOf (vault : Vault) (batchIndex : Z) : option HighestBid.t :=
  match vaultBatches vault with
  | None => None
  | Some bs =>
      if batchIndex <? 0 then None
      else match nth_error bs (Z.to_nat batchIndex) with
           | None => None
           | Some b => highestBid b
           end
  end.

End Shared.

(** [xs.map(f)] for an [f] that may throw: the exception of the first
    element on which [f] throws, if any. *)
Fixpoint mapThrowing {A B : Type} (f : A -> result B) (xs : list A) : result (list B) :=
  match xs with
  | [] => Ok []
  | x :: rest =>
      y <- f x ;;
      ys <- mapThrowing f rest ;;
      Ok (y :: ys)
  end.

(** ** The revision that sorts (stored behind [src/.eslintrc.js]) *)

Module Loose.

Record Row : Type := mkRow {
  url : string;
  minBid : BigNumber.t;
  reward : BigNumber.t;
  diff : BigNumber.t;
  margin : BigNumber.t
}.

Definition sortyByMargin (a b : Row) : Z :=
  let first := margin a in
  let second := margin b in
  if BigNumber.isGreaterThan first second then -1
  else if BigNumber.isGreaterThan second first then 1
  else 0.

Section Program.

Variable client : Client.

(** [null] and [undefined] are both falsy and only tested with [!]: both
    are [None]. *)
Definition getHighestBidSoFar (vaultId : string) (batchIndex : Z)
  : result (option HighestBid.t) :=
  tryCatch
    (vault <- getVault client vaultId ;;
     Ok (highestBidOf vault batchIndex))
    (fun error => Ok None).

Definition getStartingBid (auction : Auction) : result BigNumber.t :=
  highestBidSoFar <-
    getHighestBidSoFar (auctionVaultId auction) (index (auctionBatch auction)) ;;
  let parts := Js.split "@" (loan (auctionBatch auction)) in
  let amount := part parts 0 in
  let symbol := nth_error parts 1 in
  match highestBidSoFar with
  | None =>
      loanNum <- getPriceInDUSD client amount symbol ;;
      callMultipliedBy (priceValue loanNum) (JString "1.05")
  | Some bid =>
      let highestBidAmount := part (Js.split "@" (HighestBid.amount bid)) 0 in
      highestBidSoFarNum <- getPriceInDUSD client highestBidAmount symbol ;;
      callMultipliedBy (priceValue highestBidSoFarNum) (JString "1.01")
  end.

(** The body of the [for] loop. *)
Definition iteration (req : Request) (auction : Auction) : result (option Row) :=
  startingBid <- getStartingBid auction ;;
  reward <- getRewardPrice client (collaterals (auctionBatch auction)) ;;
  let url := auctionUrl (auctionVaultId auction) (index (auctionBatch auction)) in
  let diff := BigNumber.minus reward startingBid in
  let margin := marginOf diff startingBid in
  if BigNumber.isGreaterThanOrEqualTo margin (toBig (minMarginOf req))
  then Ok (Some (mkRow url startingBid reward diff margin))
  else Ok None.

(** The [try] block of the handler up to the final [map], which renders the
    numbers of every row with [toPrecision] and keeps the order. *)
Definition auctionRows (req : Request) : result (list Row) :=
  availableAuctions <- getAvailableAuctions client (limit req) ;;
  rows <- forLoop (iteration req) availableAuctions [] ;;
  Ok (Js.reverse (Js.sort sortyByMargin rows)).

Definition handler (req : Request) : Response Row :=
  match auctionRows req with
  | Ok auctions => Json auctions
  | Throw error => Failure 500 "Internal Server Error"
  end.

End Program.

End Loose.

(** ** The revision with the stricter filter ([src/unnamed/part_000]) *)

Module Strict.

(** An element of [result]. *)
Record Row : Type := mkRow {
  url : string;
  minBidDusd : BigNumber.t;
  reward : BigNumber.t;
  diff : BigNumber.t;
  margin : BigNumber.t;
  maxBlockNumber : option Z;
  bidToken : option string;
  maxPrice : option BigNumber.t;
  minBid : JsValue
}.

(** An element of the answer; a BigNumber field stands for its [toString]. *)
Record Rendered : Type := mkRendered {
  renderedUrl : string;
  renderedMinBidDusd : BigNumber.t;
  renderedReward : BigNumber.t;
  renderedDiff : BigNumber.t;
  renderedMargin : BigNumber.t;
  renderedMaxPrice : BigNumber.t;
  renderedMaxBlockNumber : option Z;
  renderedBidToken : option string;
  renderedMinBid : JsValue
}.

Section Program.

Variable client : Client.

Definition getMaxPrice (amount : JsValue) (symbol : option string)
  : result (option BigNumber.t) :=
  tryCatch
    (poolPair <- getPoolPair client (Js.template symbol ++ "-DUSD") ;;
     let rate := first (map (fun e => reserveA_reserveB (snd e)) poolPair) in
     p <- callMultipliedBy rate amount ;;
     Ok (Some (BigNumber.multipliedBy p (toBig (JString "0.99")))))
    (fun error => Ok None).

Definition getStartingBid (vault : Vault) (batchIndex : Z)
    (amount : JsValue) (symbol : option string) : result BigNumber.t :=
  let highestBidSoFar := highestBidOf vault batchIndex in
  match highestBidSoFar with
  | None =>
      loanNum <- getPriceInDUSD client amount symbol ;;
      callMultipliedBy (priceValue loanNum) (JString "1.05")
  | Some bid =>
      let highestBidAmount := part (Js.split "@" (HighestBid.amount bid)) 0 in
      highestBidSoFarNum <- getPriceInDUSD client highestBidAmount symbol ;;
      callMultipliedBy (priceValue highestBidSoFarNum) (JString "1.01")
  end.

(** The body of the [for] loop. *)
Definition iteration (req : Request) (auction : Auction) : result (option Row) :=
  let vaultId := auctionVaultId auction in
  let batchIndex := index (auctionBatch auction) in
  vault <- getVault client vaultId ;;
  let parts := Js.split "@" (loan (auctionBatch auction)) in
  let minBid := part parts 0 in
  let symbol := nth_error parts 1 in
  startingBid <- getStartingBid vault batchIndex minBid symbol ;;
  reward <- getRewardPrice client (collaterals (auctionBatch auction)) ;;
  let url := auctionUrl vaultId batchIndex in
  let diff := BigNumber.minus reward startingBid in
  let margin := marginOf diff startingBid in
  maxPrice <- getMaxPrice (JBig reward) symbol ;;
  if BigNumber.isGreaterThanOrEqualTo margin (toBig (minMarginOf req))
     && BigNumber.isGreaterThan diff (toBig (JNumber 1))
     && BigNumber.isLessThan startingBid (toBig (JNumber 8000))
  then Ok (Some (mkRow url startingBid reward diff margin
                   (vaultLiquidationHeight vault) symbol maxPrice minBid))
  else Ok None.

(** The callback of the final [map]: [maxPrice.toString()] throws on
    [null]; the other fields are BigNumbers or are copied. *)
Definition render (row : Row) : result Rendered :=
  match maxPrice row with
  | Some price =>
      Ok (mkRendered (url row) (minBidDusd row) (reward row) (diff row) (margin row)
            price (maxBlockNumber row) (bidToken row) (minBid row))
  | None => Throw (TypeError "Cannot read properties of null (reading 'toString')")
  end.

(** The [result] array when the loop ends. *)
Definition auctionRows (req : Request) : result (list Row) :=
  availableAuctions <- getAvailableAuctions client (limit req) ;;
  forLoop (iteration req) availableAuctions [].

Definition handler (req : Request) : Response Rendered :=
  match (rows <- auctionRows req ;; mapThrowing render rows) with
  | Ok auctions => Json auctions
  | Throw error => Failure 500 "Internal Server Error"
  end.

End Program.

End Strict.

(** ** The log

    [logError(message, error)] writes [message] to the log file and
    [message] with [error] to the console.  The functions below are the
    three functions of the program that catch an error themselves, with
    the entries they log beside their result.  Each runs its lookups one
    after the other, so the order of its entries is the order of the
    source. *)

Record LogEntry : Type := mkLogEntry { logMessage : string; logCause : Error }.

Module Logged.

Section Program.

Variable client : Client.

(** The [try] block of [getPriceInDUSD]. *)
Definition getPriceInDUSD_try (amount : JsValue) (symbol : option string)
  : result (option BigNumber.t) :=
  if Js.strictEq symbol "DFI" then
    poolPair <- getPoolPair client "DUSD-DFI" ;;
    let rate := first (map (fun e => reserveA_reserveB (snd e)) poolPair) in
    p <- callMultipliedBy rate amount ;;
    Ok (Some p)
  else
    poolPair <- getPoolPair client (Js.template symbol ++ "-DUSD") ;;
    let rate := first (map (fun e => reserveB_reserveA (snd e)) poolPair) in
    p <- callMultipliedBy rate amount ;;
    Ok (Some p).

Definition getPriceInDUSD (amount : JsValue) (symbol : option string)
  : list LogEntry * result (option BigNumber.t) :=
  match getPriceInDUSD_try amount symbol with
  | Ok price => ([], Ok price)
  | Throw error =>
      if Js.includes (message error) "Pool not found"
      then ([], getPriceInDUSD_catch client amount symbol error)
      else ([mkLogEntry "getPriceInDUSD error" error], Ok None)
  end.

(** The [try] block of [getMaxPrice]. *)
Definition getMaxPrice_try (amount : JsValue) (symbol : option string)
  : result (option BigNumber.t) :=
  poolPair <- getPoolPair client (Js.template symbol ++ "-DUSD") ;;
  let rate := first (map (fun e => reserveA_reserveB (snd e)) poolPair) in
  p <- callMultipliedBy rate amount ;;
  Ok (Some (BigNumber.multipliedBy p (toBig (JString "0.99")))).

Definition getMaxPrice (amount : JsValue) (symbol : option string)
  : list LogEntry * result (option BigNumber.t) :=
  match getMaxPrice_try amount symbol with
  | Ok price => ([], Ok price)
  | Throw error => ([mkLogEntry "getMaxPrice error" error], Ok None)
  end.

Definition getHighestBidSoFar (vaultId : string) (batchIndex : Z)
  : list LogEntry * result (option HighestBid.t) :=
  match getVault client vaultId with
  | Ok vault => ([], Ok (highestBidOf vault batchIndex))
  | Throw error => ([mkLogEntry "getVault error" error], Ok None)
  end.

End Program.

End Logged.

(** ** Vocabulary of the statements *)

(** A BigNumber that is a number. *)
Definition notNaN (x : BigNumber.t) : Prop := x <> BigNumber.NaN.

(** The [reduce] of [getRewardPrice]. *)
Definition sumPrices (prices : list (option BigNumber.t)) (start : BigNumber.t) : BigNumber.t :=
  fold_left (fun sum price => BigNumber.plus sum (toBig (priceValue price))) prices start.

(** The rows pushed by a run of iterations that did not throw. *)
Definition pushed {Row : Type} (outcomes : list (option Row)) : list Row :=
  flat_map (fun o => match o with Some row => [row] | None => [] end) outcomes.

(** A list of margins in which no margin is followed by a greater one,
    and one in which no margin is followed by a smaller one. *)
Definition descending (margins : list BigNumber.t) : Prop :=
  forall (i j : nat) (x y : BigNumber.t),
    (i < j)%nat -> nth_error margins i = Some x -> nth_error margins j = Some y ->
    BigNumber.isGreaterThanOrEqualTo x y = true.

Definition ascending (margins : list BigNumber.t) : Prop :=
  forall (i j : nat) (x y : BigNumber.t),
    (i < j)%nat -> nth_error margins i = Some x -> nth_error margins j = Some y ->
    BigNumber.isGreaterThanOrEqualTo y x = true.

(** [s] has an occurrence of the character [c]. *)
Fixpoint contains (c : ascii) (s : string) : bool :=
  match s with
  | EmptyString => false
  | String d r => Ascii.eqb d c || contains c r
  end.

(** The pool that [getPriceInDUSD] looks up first. *)
Definition directPool (symbol : option string) : string :=
  if Js.strictEq symbol "DFI" then "DUSD-DFI"%string
  else (Js.template symbol ++ "-DUSD")%string.

(** [parts.join(sep)] for a one-character separator. *)
Fixpoint joinWith (sep : ascii) (parts : list string) : string :=
  match parts with
  | [] => EmptyString
  | [p] => p
  | p :: rest => (p ++ String sep (joinWith sep rest))%string
  end.

(** The five fields that a row of [src/unnamed/part_000] shares with a row
    of the revision that sorts. *)
Definition looseRowOf (r : Strict.Rendered) : Loose.Row :=
  Loose.mkRow (Strict.renderedUrl r) (Strict.renderedMinBidDusd r)
    (Strict.renderedReward r) (Strict.renderedDiff r) (Strict.renderedMargin r).

Module LooseSpec.

Import Loose.

(** The row that an iteration pushes, if it pushes. *)
Definition rowOf (auction : Auction) (startingBid reward : BigNumber.t) : Row :=
  mkRow (auctionUrl (auctionVaultId auction) (index (auctionBatch auction)))
    startingBid reward (BigNumber.minus reward startingBid)
    (marginOf (BigNumber.minus reward startingBid) startingBid).

Definition keeps (req : Request) (startingBid reward : BigNumber.t) : bool :=
  BigNumber.isGreaterThanOrEqualTo
    (marginOf (BigNumber.minus reward startingBid) startingBid)
    (toBig (minMarginOf req)).

End LooseSpec.

Module StrictSpec.

Import Strict.

(** The array [loan.split('@')] of a batch. *)
Definition loanParts (auction : Auction) : list string :=
  Js.split "@" (loan (auctionBatch auction)).

(** The row that an iteration pushes, if it pushes. *)
Definition rowOf (auction : Auction) (vault : Vault) (startingBid reward : BigNumber.t)
    (maxPrice : option BigNumber.t) : Row :=
  mkRow (auctionUrl (auctionVaultId auction) (index (auctionBatch auction)))
    startingBid reward (BigNumber.minus reward startingBid)
    (marginOf (BigNumber.minus reward startingBid) startingBid)
    (vaultLiquidationHeight vault) (nth_error (loanParts auction) 1)
    maxPrice (part (loanParts auction) 0).

Definition keeps (req : Request) (startingBid reward : BigNumber.t) : bool :=
  BigNumber.isGreaterThanOrEqualTo
    (marginOf (BigNumber.minus reward startingBid) startingBid)
    (toBig (minMarginOf req))
  && BigNumber.isGreaterThan (BigNumber.minus reward startingBid) (BigNumber.ofZ 1)
  && BigNumber.isLessThan startingBid (BigNumber.ofZ 8000).

End StrictSpec.

(** ** Fixtures

    A node with three pools.  [BTC-DUSD] prices one BTC at 20000 DUSD,
    [DUSD-DFI] one DFI at 2 DUSD; [ETH-DUSD] does not exist and ETH is
    priced through [ETH-DFI] at 3 DFI.  Looking up [DOGE-DUSD] fails with
    a transport error. *)

Module Fixture.

Local Open Scope string_scope.

Definition pool (id : string) (aPerB bPerA : Q) : PoolPairsResult :=
  [(id, mkPoolPairInfo (JBig (BigNumber.Fin aPerB)) (JBig (BigNumber.Fin bPerA)))].

Definition poolNotFound : Error :=
  mkError "RpcApiError: 'Pool not found', code: -5, method: getpoolpair".

Definition connectionRefused : Error :=
  mkError "request to http://localhost:8554/ failed, reason: connect ECONNREFUSED".

Definition pools (id : string) : result PoolPairsResult :=
  if String.eqb id "DUSD-DFI" then Ok (pool "17" 2 (1 # 2))
  else if String.eqb id "BTC-DUSD" then Ok (pool "21" (1 # 20000) 20000)
  else if String.eqb id "ETH-DFI" then Ok (pool "4" (1 # 3) 3)
  else if String.eqb id "DOGE-DUSD" then Throw connectionRefused
  else Throw poolNotFound.

Definition batch (i : Z) (loan : string) (collaterals : list string) : Batch :=
  mkBatch i collaterals loan None.

Definition vaultOf (bs : list Batch) : Vault := mkVault (Some bs) (Some 2000000).

(** A node whose only vault in liquidation is ["v1"] with batches [bs]. *)
Definition node (bs : list Batch) : Client :=
  mkClient
    (fun _ => Ok [mkVaultLiquidation "v1" 2000000 bs])
    (fun id => if String.eqb id "v1" then Ok (vaultOf bs)
               else Throw (mkError "RpcApiError: 'Vault not found'"))
    pools.

(** The same node when [getVault] is out of order. *)
Definition nodeWithoutVaults (bs : list Batch) : Client :=
  mkClient
    (fun _ => Ok [mkVaultLiquidation "v1" 2000000 bs])
    (fun id => Throw connectionRefused)
    pools.

Definition request : Request := mkRequest (Some 10) None.

(** The same request with [?minMarginPercentage=20] and with 25. *)
Definition request20 : Request := mkRequest (Some 10) (Some "20").

Definition request25 : Request := mkRequest (Some 10) (Some "25").

(** Starting bid 105 DUSD; rewards 110.25, 126 and 117.6 DUSD: margins of
    5, 20 and 12 percent. *)
Definition threeMargins : list Batch :=
  [ batch 0 "0.005@BTC" ["55.125@DFI"];
    batch 1 "0.005@BTC" ["63@DFI"];
    batch 2 "0.005@BTC" ["58.8@DFI"] ].

(** Starting bid 1.05 DUSD, reward 2 DUSD. *)
Definition smallBatch : list Batch := [ batch 0 "0.00005@BTC" ["1@DFI"] ].

(** A loan of nothing: starting bid 0, reward 20 DUSD. *)
Definition zeroLoan : list Batch := [ batch 0 "0@BTC" ["10@DFI"] ].

(** The price of the loan of the first batch cannot be looked up. *)
Definition brokenLoanFirst : list Batch :=
  [ batch 0 "1000@DOGE" ["63@DFI"];
    batch 1 "0.005@BTC" ["63@DFI"] ].

(** The price of one collateral of the first batch cannot be looked up. *)
Definition brokenCollateralFirst : list Batch :=
  [ batch 0 "0.005@BTC" ["63@DFI"; "1000@DOGE"];
    batch 1 "0.005@BTC" ["63@DFI"] ].

(** A node on which one DFI is one DUSD. *)
Definition parityPools (id : string) : result PoolPairsResult :=
  if String.eqb id "DUSD-DFI" then Ok (pool "17" 1 1) else Throw poolNotFound.

Definition parityNode : Client :=
  mkClient (fun _ => Ok []) (fun id => Throw connectionRefused) parityPools.

(** A vault whose batch 0 has no bid, and one whose batch 0 has a bid of
    110 DFI. *)
Definition bidlessVault : Vault := vaultOf [batch 0 "100@DFI" []].

Definition vaultWithBid : Vault :=
  vaultOf [mkBatch 0 [] "100@DFI" (Some (HighestBid.make "owner" "110@DFI"))].

(** A loan in ETH, which has no pool with DUSD: starting bid 63 DUSD,
    reward 126 DUSD. *)
Definition ethLoan : list Batch := [ batch 0 "10@ETH" ["63@DFI"] ].

(** A batch without collateral. *)
Definition noCollateral : list Batch := [ batch 0 "0.005@BTC" [] ].

(** The request with [?minMarginPercentage=abc]. *)
Definition requestAbc : Request := mkRequest (Some 10) (Some "abc").

End Fixture.

(** * Properties *)

(** ** The model of strings and numbers on examples *)

Example ofString_decimal :
  BigNumber.ofString "1.05" = BigNumber.Fin (21 # 20)
  /\ BigNumber.ofString "100.00000000" = BigNumber.Fin 100
  /\ BigNumber.ofString "-.5e1" = BigNumber.Fin (-5)
  /\ BigNumber.ofString "12e-2" = BigNumber.Fin (3 # 25)
  /\ BigNumber.ofString "1." = BigNumber.Fin 1
  /\ BigNumber.ofString "." = BigNumber.NaN
  /\ BigNumber.ofString "" = BigNumber.NaN
  /\ BigNumber.ofString "undefined" = BigNumber.NaN
  /\ BigNumber.ofString "-Infinity" = BigNumber.Inf true.
Proof. repeat split; reflexivity. Qed.

Example split_examples :
  Js.split "@" "10.5@DFI" = ["10.5"; "DFI"]%string
  /\ Js.split "@" "10" = ["10"]%string
  /\ Js.split "@" "" = [""]%string
  /\ Js.split "@" "a@b@" = ["a"; "b"; ""]%string.
Proof. repeat split; reflexivity. Qed.

Example dividedBy_examples :
  BigNumber.dividedBy (BigNumber.ofZ 20) (BigNumber.ofZ 100) = BigNumber.Fin (1 # 5)
  /\ BigNumber.dividedBy (BigNumber.ofZ 2) (BigNumber.ofZ 3)
     = BigNumber.Fin (66666666666666666667 # 100000000000000000000)
  /\ BigNumber.dividedBy (BigNumber.ofZ (-1)) (BigNumber.ofZ 3)
     = BigNumber.Fin (-33333333333333333333 # 100000000000000000000)
  /\ BigNumber.dividedBy (BigNumber.ofZ 10) BigNumber.zero = BigNumber.Inf false
  /\ BigNumber.dividedBy BigNumber.zero BigNumber.zero = BigNumber.NaN.
Proof. repeat split; vm_compute; reflexivity. Qed.

(** ** Arithmetic of BigNumbers *)

Module BigNumberFacts.

Import BigNumber.

Lemma fin_ext (p q : Q) : (p == q)%Q -> fin p = fin q.
Proof. intros H. unfold fin. f_equal. now apply Qred_complete. Qed.

Lemma isZeroQ_spec (q : Q) : isZeroQ q = true <-> (q == 0)%Q.
Proof.
  unfold isZeroQ, Qeq. simpl. rewrite Z.eqb_eq. lia.
Qed.

Lemma isNegQ_spec (q : Q) : isNegQ q = true <-> (q < 0)%Q.
Proof.
  unfold isNegQ, Qlt. simpl. rewrite Z.ltb_lt. lia.
Qed.

Lemma isZeroQ_ext (p q : Q) : (p == q)%Q -> isZeroQ p = isZeroQ q.
Proof.
  intros H. apply eq_true_iff_eq. rewrite !isZeroQ_spec. now rewrite H.
Qed.

Lemma isNegQ_ext (p q : Q) : (p == q)%Q -> isNegQ p = isNegQ q.
Proof.
  intros H. apply eq_true_iff_eq. rewrite !isNegQ_spec. now rewrite H.
Qed.

Lemma multipliedBy_comm (x y : t) : multipliedBy x y = multipliedBy y x.
Proof.
  destruct x as [p | a |], y as [q | b |]; simpl; try reflexivity.
  - apply fin_ext, Qmult_comm.
  - now rewrite xorb_comm.
  - now rewrite xorb_comm.
  - now rewrite xorb_comm.
Qed.

Lemma plus_comm (x y : t) : plus x y = plus y x.
Proof.
  destruct x as [p | a |], y as [q | b |]; simpl; try reflexivity.
  - apply fin_ext, Qplus_comm.
  - destruct a, b; reflexivity.
Qed.

Lemma plus_assoc (x y z : t) : plus x (plus y z) = plus (plus x y) z.
Proof.
  destruct x as [p | a |], y as [q | b |], z as [r | c |];
    try reflexivity;
    try (destruct a; reflexivity);
    try (destruct b; reflexivity);
    try (destruct a, b; reflexivity);
    try (destruct b, c; reflexivity);
    try (destruct a, b, c; reflexivity).
  change (fin (p + Qred (q + r)) = fin (Qred (p + q) + r)).
  apply fin_ext. rewrite !Qred_correct. apply Qplus_assoc.
Qed.

Lemma plus_NaN_r (x : t) : plus x NaN = NaN.
Proof. destruct x; reflexivity. Qed.

(** A sum of finite values is the reduced sum of the rationals. *)
Lemma fold_right_plus_Fin (qs : list Q) :
  fold_right plus zero (map Fin qs) = fin (fold_right Qplus 0%Q qs).
Proof.
  induction qs as [| q qs IH].
  - reflexivity.
  - change (plus (Fin q) (fold_right plus zero (map Fin qs))
            = fin (q + fold_right Qplus 0%Q qs)).
    rewrite IH.
    change (fin (q + Qred (fold_right Qplus 0%Q qs)) = fin (q + fold_right Qplus 0%Q qs)).
    apply fin_ext. now rewrite Qred_correct.
Qed.

(** *** Order *)

Lemma isGreaterThanOrEqualTo_notNaN (x y : t) :
  isGreaterThanOrEqualTo x y = true -> notNaN x /\ notNaN y.
Proof.
  unfold isGreaterThanOrEqualTo, notNaN.
  destruct x, y; simpl; intros H; split; congruence.
Qed.

Lemma notGreater_ge (x y : t) :
  notNaN x -> notNaN y ->
  isGreaterThan y x = false -> isGreaterThanOrEqualTo x y = true.
Proof.
  unfold notNaN, isGreaterThan, isGreaterThanOrEqualTo.
  destruct x as [p | a |], y as [q | b |]; simpl; try congruence.
  - intros _ _. rewrite <- (Qcompare_antisym p q).
    destruct (p ?= q)%Q; simpl; congruence.
  - destruct b; congruence.
  - destruct a; congruence.
  - destruct a, b; congruence.
Qed.

Lemma greater_ge (x y : t) :
  isGreaterThan x y = true -> isGreaterThanOrEqualTo x y = true.
Proof.
  unfold isGreaterThan, isGreaterThanOrEqualTo.
  destruct (comparedTo x y) as [[]|]; congruence.
Qed.

Lemma ge_Fin (p q : Q) :
  isGreaterThanOrEqualTo (Fin p) (Fin q) = true <-> (q <= p)%Q.
Proof.
  unfold isGreaterThanOrEqualTo. simpl.
  rewrite (Qle_alt q p), <- (Qcompare_antisym p q).
  destruct (p ?= q)%Q; simpl; split; congruence.
Qed.

Lemma ge_trans (x y z : t) :
  isGreaterThanOrEqualTo x y = true ->
  isGreaterThanOrEqualTo y z = true ->
  isGreaterThanOrEqualTo x z = true.
Proof.
  destruct x as [p | a |], y as [q | b |], z as [r | c |];
    try (unfold isGreaterThanOrEqualTo; simpl; congruence);
    try (unfold isGreaterThanOrEqualTo; simpl; destruct a; congruence);
    try (unfold isGreaterThanOrEqualTo; simpl; destruct b; congruence);
    try (unfold isGreaterThanOrEqualTo; simpl; destruct c; congruence);
    try (unfold isGreaterThanOrEqualTo; simpl; destruct a, b; congruence);
    try (unfold isGreaterThanOrEqualTo; simpl; destruct b, c; congruence);
    try (unfold isGreaterThanOrEqualTo; simpl; destruct a, c; congruence);
    try (unfold isGreaterThanOrEqualTo; simpl; destruct a, b, c; congruence).
  rewrite !ge_Fin. intros H1 H2. now apply Qle_trans with q.
Qed.

End BigNumberFacts.

(** ** Sorting and reversing *)

Section SortFacts.

Context {A : Type} (compareFn : A -> A -> Z).

(** [P] holds of the elements that are sorted, [R] is the order the
    comparison function decides on them. *)
Variables (P : A -> Prop) (R : A -> A -> Prop).

Hypothesis R_trans : forall x y z, R x y -> R y z -> R x z.
Hypothesis before_R : forall x y, P x -> P y -> (compareFn x y <=? 0) = true -> R x y.
Hypothesis after_R : forall x y, P x -> P y -> (compareFn x y <=? 0) = false -> R y x.

Lemma insert_Permutation (x : A) (xs : list A) :
  Permutation (x :: xs) (Js.insert compareFn x xs).
Proof.
  induction xs as [| y ys IH]; simpl.
  - apply Permutation_refl.
  - destruct (compareFn x y <=? 0).
    + apply Permutation_refl.
    + eapply perm_trans; [apply perm_swap | apply perm_skip, IH].
Qed.

Lemma sort_Permutation (xs : list A) : Permutation xs (Js.sort compareFn xs).
Proof.
  induction xs as [| x xs IH]; simpl.
  - apply perm_nil.
  - eapply perm_trans; [apply perm_skip, IH | apply insert_Permutation].
Qed.

Lemma insert_StronglySorted (x : A) (xs : list A) :
  P x -> Forall P xs -> StronglySorted R xs ->
  StronglySorted R (Js.insert compareFn x xs).
Proof.
  intros Px Pxs Hs. induction Hs as [| y ys Hys IH Hy]; simpl.
  - constructor; constructor.
  - inversion Pxs as [| ? ? Py Pys]; subst.
    destruct (compareFn x y <=? 0) eqn:E.
    + constructor; [constructor; assumption |].
      constructor; [now apply before_R |].
      eapply Forall_impl; [| exact Hy]. intros z Hz.
      eapply R_trans; [apply before_R; eassumption | exact Hz].
    + constructor; [now apply IH |].
      eapply Permutation_Forall; [apply insert_Permutation |].
      constructor; [now apply after_R | exact Hy].
Qed.

Lemma sort_StronglySorted (xs : list A) :
  Forall P xs -> StronglySorted R (Js.sort compareFn xs).
Proof.
  induction 1 as [| x xs Px Pxs IH]; simpl.
  - constructor.
  - apply insert_StronglySorted; try assumption.
    eapply Permutation_Forall; [apply sort_Permutation | assumption].
Qed.

End SortFacts.

Lemma StronglySorted_app {A : Type} (R : A -> A -> Prop) (l1 l2 : list A) :
  StronglySorted R l1 -> StronglySorted R l2 ->
  (forall a b, In a l1 -> In b l2 -> R a b) ->
  StronglySorted R (l1 ++ l2).
Proof.
  intros H1 H2 H12. induction H1 as [| x l1 Hl1 IH Hx]; simpl.
  - exact H2.
  - constructor.
    + apply IH. intros a b Ha Hb. apply H12; [now right | exact Hb].
    + apply Forall_app. split; [exact Hx |].
      apply Forall_forall. intros b Hb. apply H12; [now left | exact Hb].
Qed.

Lemma StronglySorted_rev {A : Type} (R : A -> A -> Prop) (l : list A) :
  StronglySorted R l -> StronglySorted (fun x y => R y x) (rev l).
Proof.
  induction 1 as [| x l Hl IH Hx]; simpl.
  - constructor.
  - apply StronglySorted_app.
    + exact IH.
    + constructor; constructor.
    + intros a b Ha [<- | []]. apply in_rev in Ha.
      rewrite Forall_forall in Hx. now apply Hx.
Qed.

Lemma StronglySorted_nth_error {A : Type} (R : A -> A -> Prop) (l : list A) :
  StronglySorted R l ->
  forall i j x y, (i < j)%nat ->
    nth_error l i = Some x -> nth_error l j = Some y -> R x y.
Proof.
  induction 1 as [| a l Hl IH Ha]; intros i j x y Hij Hi Hj.
  - destruct i; discriminate.
  - destruct j as [| j]; [lia |]. simpl in Hj.
    destruct i as [| i]; simpl in Hi.
    + injection Hi as <-. rewrite Forall_forall in Ha.
      apply Ha. eapply nth_error_In; eassumption.
    + apply (IH i j); [lia | assumption | assumption].
Qed.

(** ** The loop of the handler *)

Lemma forLoop_Ok {Row : Type} (body : Auction -> result (option Row))
    (auctions : list Auction) (rows0 rows : list Row) :
  forLoop body auctions rows0 = Ok rows <->
  exists outcomes,
    Forall2 (fun a o => body a = Ok o) auctions outcomes
    /\ rows = rows0 ++ pushed outcomes.
Proof.
  revert rows0. induction auctions as [| a rest IH]; intros rows0; simpl.
  - split.
    + intros [= <-]. exists []. split; [constructor | now rewrite app_nil_r].
    + intros (os & HF & ->). inversion HF; subst. simpl. now rewrite app_nil_r.
  - destruct (body a) as [o | e] eqn:E; simpl.
    + rewrite IH. split.
      * intros (os & HF & ->). exists (o :: os). split; [now constructor |].
        destruct o; simpl; [now rewrite <- app_assoc | reflexivity].
      * intros (os & HF & ->). inversion HF as [| ? o' ? os' Ho HF']; subst.
        assert (o' = o) as -> by congruence.
        exists os'. split; [exact HF' |].
        destruct o; simpl; [now rewrite <- app_assoc | reflexivity].
    + split; [discriminate |].
      intros (os & HF & _). inversion HF; subst. congruence.
Qed.

Lemma Forall2_In_l {A B : Type} {R : A -> B -> Prop} {l : list A} {l' : list B} {a : A} :
  Forall2 R l l' -> In a l -> exists b, In b l' /\ R a b.
Proof.
  induction 1 as [| x y l l' Hxy HF IH]; intros Hin.
  - destruct Hin.
  - destruct Hin as [<- | Hin].
    + exists y. split; [now left | exact Hxy].
    + destruct (IH Hin) as (b & Hb & Hab). exists b. split; [now right | exact Hab].
Qed.

Lemma Forall2_In_r {A B : Type} {R : A -> B -> Prop} {l : list A} {l' : list B} {b : B} :
  Forall2 R l l' -> In b l' -> exists a, In a l /\ R a b.
Proof.
  induction 1 as [| x y l l' Hxy HF IH]; intros Hin.
  - destruct Hin.
  - destruct Hin as [<- | Hin].
    + exists x. split; [now left | exact Hxy].
    + destruct (IH Hin) as (a & Ha & Hab). exists a. split; [now right | exact Hab].
Qed.

Lemma forLoop_Throw {Row : Type} (body : Auction -> result (option Row))
    (auctions : list Auction) (rows0 : list Row) (a : Auction) (e : Error) :
  In a auctions -> body a = Throw e ->
  exists e', forLoop body auctions rows0 = Throw e'.
Proof.
  intros Hin Hbody. destruct (forLoop body auctions rows0) as [rows | e'] eqn:E.
  - apply forLoop_Ok in E. destruct E as (os & HF & _).
    destruct (Forall2_In_l HF Hin) as (o & _ & Ho). congruence.
  - now exists e'.
Qed.

Lemma in_pushed {Row : Type} (outcomes : list (option Row)) (row : Row) :
  In row (pushed outcomes) <-> In (Some row) outcomes.
Proof.
  unfold pushed. rewrite in_flat_map. split.
  - intros ([r |] & Hin & Hr); simpl in Hr; [| contradiction].
    destruct Hr as [<- | []]. exact Hin.
  - intros Hin. exists (Some row). split; [exact Hin | now left].
Qed.

(** ** Amount strings *)

Lemma split_nonempty (sep : ascii) (s : string) : Js.split sep s <> [].
Proof.
  destruct s as [| c r]; simpl; [discriminate |].
  destruct (Ascii.eqb c sep); [discriminate |].
  destruct (Js.split sep r); discriminate.
Qed.

(** The first element of [(a ++ "@" ++ s).split('@')] is [a] when [a] has
    no separator. *)
Lemma split_app (sep : ascii) (a s : string) :
  contains sep a = false ->
  Js.split sep (a ++ String sep s) = a :: Js.split sep s.
Proof.
  induction a as [| c a IH]; simpl; intros H.
  - now rewrite Ascii.eqb_refl.
  - apply orb_false_iff in H. destruct H as [Hc Ha].
    rewrite Hc, (IH Ha). reflexivity.
Qed.

(** ** The bid estimator *)

Lemma getStartingBid_without_bid (client : Client) (vault : Vault) (batchIndex : Z)
    (amount : JsValue) (symbol : option string) (p : BigNumber.t) :
  highestBidOf vault batchIndex = None ->
  getPriceInDUSD client amount symbol = Ok (Some p) ->
  Strict.getStartingBid client vault batchIndex amount symbol
  = Ok (BigNumber.multipliedBy p (BigNumber.fin 1.05)).
Proof.
  intros Hbid Hprice. unfold Strict.getStartingBid.
  rewrite Hbid, Hprice. reflexivity.
Qed.

Lemma getStartingBid_with_bid (client : Client) (vault : Vault) (batchIndex : Z)
    (amount : JsValue) (symbol : option string) (p : BigNumber.t)
    (owner bidAmount bidSymbol : string) :
  contains "@" bidAmount = false ->
  highestBidOf vault batchIndex
  = Some (HighestBid.make owner (bidAmount ++ "@" ++ bidSymbol)) ->
  getPriceInDUSD client (JString bidAmount) symbol = Ok (Some p) ->
  Strict.getStartingBid client vault batchIndex amount symbol
  = Ok (BigNumber.multipliedBy p (BigNumber.fin 1.01)).
Proof.
  intros HnoAt Hbid Hprice.
  unfold Strict.getStartingBid. rewrite Hbid. simpl HighestBid.amount.
  change (bidAmount ++ "@" ++ bidSymbol)%string
    with (bidAmount ++ String "@" bidSymbol)%string.
  rewrite (split_app "@" bidAmount bidSymbol HnoAt).
  unfold part. cbn [nth_error]. cbv beta iota zeta. rewrite Hprice. reflexivity.
Qed.

(** C5.  [getStartingBid] of [src/unnamed/part_000]: for a batch without a
    highest bid the starting bid is the DUSD price of the loan amount in
    the loan symbol times 1.05; for a batch with a highest bid it is the
    DUSD price, in the loan symbol, of the amount component of the bid
    string times 1.01. *)
Theorem C5_getStartingBid_premium :
  forall (client : Client) (vault : Vault) (batchIndex : Z)
         (amount : JsValue) (symbol : option string) (p : BigNumber.t),
    (highestBidOf vault batchIndex = None ->
     getPriceInDUSD client amount symbol = Ok (Some p) ->
     Strict.getStartingBid client vault batchIndex amount symbol
     = Ok (BigNumber.multipliedBy p (BigNumber.fin 1.05)))
    /\
    (forall (owner bidAmount bidSymbol : string),
        contains "@" bidAmount = false ->
        highestBidOf vault batchIndex
        = Some (HighestBid.make owner (bidAmount ++ "@" ++ bidSymbol)) ->
        getPriceInDUSD client (JString bidAmount) symbol = Ok (Some p) ->
        Strict.getStartingBid client vault batchIndex amount symbol
        = Ok (BigNumber.multipliedBy p (BigNumber.fin 1.01))).
Proof.
  intros client vault batchIndex amount symbol p. split.
  - apply getStartingBid_without_bid.
  - intros owner bidAmount bidSymbol. apply getStartingBid_with_bid.
Qed.

(** The example of C5: one DFI is one DUSD; a loan of 100 DFI without a
    bid starts at 105, and with a highest bid of 110 DFI at 111.1. *)
Lemma C5_getStartingBid_premium_witness :
  Strict.getStartingBid Fixture.parityNode Fixture.bidlessVault 0
    (JString "100") (Some "DFI"%string)
  = Ok (BigNumber.Fin 105)
  /\ Strict.getStartingBid Fixture.parityNode Fixture.vaultWithBid 0
       (JString "100") (Some "DFI"%string)
     = Ok (BigNumber.Fin (1111 # 10)).
Proof.
  split.
  - exact (proj1 (C5_getStartingBid_premium Fixture.parityNode Fixture.bidlessVault 0
                    (JString "100") (Some "DFI"%string) (BigNumber.Fin 100))
             eq_refl eq_refl).
  - exact (proj2 (C5_getStartingBid_premium Fixture.parityNode Fixture.vaultWithBid 0
                    (JString "100") (Some "DFI"%string) (BigNumber.Fin 110))
             "owner"%string "110"%string "DFI"%string eq_refl eq_refl eq_refl).
Defined.

(** C10.  When the vault has no batch list, when the batch index is outside
    the list, or when the batch at the index has no [highestBid],
    [getStartingBid] behaves exactly as on a batch without bids, and gives
    the price of the loan times 1.05 whenever that price is available. *)
Theorem C10_missing_batch_takes_no_bid_path :
  forall (client : Client) (vault : Vault) (batchIndex : Z)
         (amount : JsValue) (symbol : option string),
    (vaultBatches vault = None
     \/ exists bs, vaultBatches vault = Some bs
          /\ (batchIndex < 0
              \/ Z.of_nat (List.length bs) <= batchIndex
              \/ exists b, nth_error bs (Z.to_nat batchIndex) = Some b
                           /\ highestBid b = None)) ->
    Strict.getStartingBid client vault batchIndex amount symbol
    = Strict.getStartingBid client Fixture.bidlessVault 0 amount symbol
    /\ forall p, getPriceInDUSD client amount symbol = Ok (Some p) ->
         Strict.getStartingBid client vault batchIndex amount symbol
         = Ok (BigNumber.multipliedBy p (BigNumber.fin 1.05)).
Proof.
  intros client vault batchIndex amount symbol H.
  assert (Hnone : highestBidOf vault batchIndex = None).
  { unfold highestBidOf.
    destruct H as [-> | (bs & -> & [Hneg | [Hbig | (b & Hb & Hbid)]])].
    - reflexivity.
    - apply Z.ltb_lt in Hneg. now rewrite Hneg.
    - destruct (batchIndex <? 0); [reflexivity |].
      assert (Hn : nth_error bs (Z.to_nat batchIndex) = None)
        by (apply nth_error_None; lia).
      now rewrite Hn.
    - destruct (batchIndex <? 0); [reflexivity |]. now rewrite Hb. }
  split.
  - unfold Strict.getStartingBid. now rewrite Hnone.
  - intros p Hp.
    now apply getStartingBid_without_bid.
Qed.

(** An index beyond the only batch of the vault: the loan of 100 DFI at
    parity starts at 105. *)
Lemma C10_missing_batch_takes_no_bid_path_witness :
  Strict.getStartingBid Fixture.parityNode Fixture.bidlessVault 7
    (JString "100") (Some "DFI"%string)
  = Ok (BigNumber.Fin 105).
Proof.
  refine (proj2 (C10_missing_batch_takes_no_bid_path Fixture.parityNode
                   Fixture.bidlessVault 7 (JString "100") (Some "DFI"%string) _)
            (BigNumber.Fin 100) eq_refl).
  right. exists [Fixture.batch 0 "100@DFI" []]. split; [reflexivity |].
  right. left. simpl. lia.
Defined.

(** ** The price oracle *)

(** C6.  For a symbol other than DFI whose pool with DUSD is reported as
    not found, while the pools [symbol-DFI] and [DUSD-DFI] answer with the
    ratios [r1] (reserveB/reserveA) and [r2] (reserveA/reserveB), the price
    of [amount] is [amount * r1 * r2]. *)
Theorem C6_two_hop_price :
  forall (client : Client) (amount : JsValue) (symbol : string) (e : Error)
         (id1 id2 : string) (info1 info2 : PoolPairInfo)
         (rest1 rest2 : PoolPairsResult) (r1 r2 : BigNumber.t),
    symbol <> "DFI"%string ->
    getPoolPair client (symbol ++ "-DUSD") = Throw e ->
    Js.includes (message e) "Pool not found" = true ->
    getPoolPair client (symbol ++ "-DFI") = Ok ((id1, info1) :: rest1) ->
    reserveB_reserveA info1 = JBig r1 ->
    getPoolPair client "DUSD-DFI" = Ok ((id2, info2) :: rest2) ->
    reserveA_reserveB info2 = JBig r2 ->
    getPriceInDUSD client amount (Some symbol)
    = Ok (Some (BigNumber.multipliedBy (BigNumber.multipliedBy (toBig amount) r1) r2)).
Proof.
  intros client amount symbol e id1 id2 info1 info2 rest1 rest2 r1 r2
    Hsym Hdirect Hmsg Hfirst Hr1 Hsecond Hr2.
  unfold getPriceInDUSD. simpl Js.strictEq. simpl Js.template.
  apply String.eqb_neq in Hsym. rewrite Hsym, Hdirect. simpl.
  unfold getPriceInDUSD_catch. rewrite Hmsg. simpl Js.template.
  simpl promiseAll. rewrite Hfirst, Hsecond. simpl.
  rewrite Hr1, Hr2. simpl.
  now rewrite (BigNumberFacts.multipliedBy_comm r1 (toBig amount)).
Qed.

(** The example of C6: hop ratios 3 and 2, amount 5, price 30. *)
Lemma C6_two_hop_price_witness :
  getPriceInDUSD (Fixture.node []) (JString "5") (Some "ETH"%string)
  = Ok (Some (BigNumber.Fin 30)).
Proof.
  refine (C6_two_hop_price (Fixture.node []) (JString "5") "ETH" Fixture.poolNotFound
            "4" "17" _ _ [] [] (BigNumber.Fin 3) (BigNumber.Fin 2)
            _ eq_refl eq_refl eq_refl eq_refl eq_refl eq_refl).
  discriminate.
Defined.

(** ** The reward estimator *)

Lemma promiseAll_Ok {A : Type} (promises : list (result A)) (values : list A) :
  promiseAll promises = Ok values <-> Forall2 (fun p a => p = Ok a) promises values.
Proof.
  revert values. induction promises as [| p rest IH]; intros values; simpl.
  - split.
    + intros [= <-]. constructor.
    + intros H. inversion H. reflexivity.
  - destruct p as [a | e].
    + destruct (promiseAll rest) as [l | e'].
      * split.
        -- intros [= <-]. constructor; [reflexivity | exact (proj1 (IH l) eq_refl)].
        -- intros H. inversion H as [| ? a' ? l' Ha Hl]; subst.
           injection Ha as <-. apply (proj2 (IH l')) in Hl. now injection Hl as <-.
      * split; [discriminate |].
        intros H. inversion H as [| ? a' ? l' Ha Hl]; subst.
        apply (proj2 (IH l')) in Hl. discriminate.
    + split; [discriminate |].
      intros H. inversion H; subst. discriminate.
Qed.

Lemma promiseAll_Throw {A : Type} (promises : list (result A)) (e : Error) :
  promiseAll promises = Throw e -> Exists (fun p => exists e', p = Throw e') promises.
Proof.
  revert e. induction promises as [| p rest IH]; intros e; simpl; [discriminate |].
  destruct p as [a | e1].
  - destruct (promiseAll rest) as [l | e2]; [discriminate |].
    intros _. right. now apply (IH e2).
  - intros _. left. now exists e1.
Qed.

Lemma sumPrices_Some (prices : list BigNumber.t) (start : BigNumber.t) :
  sumPrices (map Some prices) start = fold_left BigNumber.plus prices start.
Proof.
  revert start. induction prices as [| p prices IH]; intros start; simpl.
  - reflexivity.
  - apply IH.
Qed.

Lemma sumPrices_NaN (prices : list (option BigNumber.t)) :
  sumPrices prices BigNumber.NaN = BigNumber.NaN.
Proof.
  induction prices as [| p prices IH]; simpl; [reflexivity | exact IH].
Qed.

Lemma sumPrices_null (prices : list (option BigNumber.t)) (start : BigNumber.t) :
  In None prices -> sumPrices prices start = BigNumber.NaN.
Proof.
  revert start. induction prices as [| p prices IH]; intros start Hin.
  - destruct Hin.
  - destruct Hin as [-> | Hin].
    + simpl. change (toBig JNull) with BigNumber.NaN.
      rewrite BigNumberFacts.plus_NaN_r. apply sumPrices_NaN.
    + simpl. now apply IH.
Qed.

(** C8.  When every collateral is priced, the reward is the sum of the
    prices starting from zero: the right fold of [plus] over the prices,
    and for finite prices the reduced sum of their rationals.  The reward of
    the empty list is zero. *)
Theorem C8_reward_is_sum :
  forall (client : Client),
    getRewardPrice client [] = Ok BigNumber.zero
    /\ forall (collaterals : list string) (prices : list BigNumber.t),
         Forall2 (fun c p => collateralPrice client c = Ok (Some p)) collaterals prices ->
         getRewardPrice client collaterals
         = Ok (fold_right BigNumber.plus BigNumber.zero prices)
         /\ forall qs : list Q,
              prices = map BigNumber.Fin qs ->
              getRewardPrice client collaterals
              = Ok (BigNumber.fin (fold_right Qplus 0%Q qs)).
Proof.
  intros client. split; [reflexivity |].
  intros collaterals prices HF.
  assert (Hsum : getRewardPrice client collaterals
                 = Ok (fold_right BigNumber.plus BigNumber.zero prices)).
  { unfold getRewardPrice.
    assert (Hall : promiseAll (map (collateralPrice client) collaterals)
                   = Ok (map Some prices)).
    { apply promiseAll_Ok. induction HF as [| c p cs ps Hc HF IH]; simpl.
      - constructor.
      - constructor; assumption. }
    rewrite Hall. simpl. f_equal.
    change (sumPrices (map Some prices) BigNumber.zero
            = fold_right BigNumber.plus BigNumber.zero prices).
    rewrite sumPrices_Some. apply fold_symmetric.
    - intros x y z. apply BigNumberFacts.plus_assoc.
    - intros y. apply BigNumberFacts.plus_comm. }
  split; [exact Hsum |].
  intros qs ->. rewrite Hsum. f_equal. apply BigNumberFacts.fold_right_plus_Fin.
Qed.

(** Two collaterals of 63 and 58.8 DFI at 2 DUSD: 243.6 DUSD. *)
Lemma C8_reward_is_sum_witness :
  getRewardPrice (Fixture.node []) ["63@DFI"; "58.8@DFI"]%string
  = Ok (BigNumber.Fin (1218 # 5)).
Proof.
  refine (proj2 (proj2 (C8_reward_is_sum (Fixture.node []))
                   ["63@DFI"; "58.8@DFI"]%string
                   [BigNumber.Fin 126; BigNumber.Fin (588 # 5)] _)
            [126%Q; (588 # 5)%Q] eq_refl).
  repeat constructor.
Defined.

(** C7, as the claim states it, fails: a collateral whose lookup fails with
    a transport error is priced [null], and the reward computation then
    returns NaN; it does not throw. *)
Lemma C7_counterexample :
  ~ (forall (client : Client) (collaterals : list string),
        Exists (fun c => collateralPrice client c = Ok None
                         \/ exists e, collateralPrice client c = Throw e) collaterals ->
        exists e, getRewardPrice client collaterals = Throw e).
Proof.
  intros H.
  destruct (H (Fixture.node []) ["63@DFI"; "1000@DOGE"]%string) as [e He].
  - right. left. left. reflexivity.
  - discriminate He.
Qed.

(** C7, amended.  When the price of some collateral is [null] or its
    conversion throws, the reward is never a number: the computation throws
    when a conversion throws, and otherwise returns NaN. *)
Theorem C7_reward_never_partial :
  forall (client : Client) (collaterals : list string),
    Exists (fun c => collateralPrice client c = Ok None
                     \/ exists e, collateralPrice client c = Throw e) collaterals ->
    (getRewardPrice client collaterals = Ok BigNumber.NaN
     /\ Forall (fun c => exists p, collateralPrice client c = Ok p) collaterals)
    \/ (exists e, getRewardPrice client collaterals = Throw e
        /\ Exists (fun c => exists e', collateralPrice client c = Throw e') collaterals).
Proof.
  intros client collaterals Hfail. unfold getRewardPrice.
  destruct (promiseAll (map (collateralPrice client) collaterals)) as [prices | e] eqn:E.
  - left. apply promiseAll_Ok in E. split.
    + simpl. f_equal. apply sumPrices_null.
      apply Exists_exists in Hfail. destruct Hfail as (c & Hin & Hc).
      assert (Hin' : In (collateralPrice client c) (map (collateralPrice client) collaterals))
        by now apply in_map.
      destruct (Forall2_In_l E Hin') as (p & Hp & Hcp).
      destruct Hc as [Hnull | [e He]]; [| congruence].
      assert (p = None) as -> by congruence. exact Hp.
    + apply Forall_forall. intros c Hin.
      assert (Hin' : In (collateralPrice client c) (map (collateralPrice client) collaterals))
        by now apply in_map.
      destruct (Forall2_In_l E Hin') as (p & _ & Hcp). now exists p.
  - right. exists e. split; [reflexivity |].
    apply promiseAll_Throw in E. apply Exists_exists in E.
    destruct E as (p & Hin & e' & ->). apply in_map_iff in Hin.
    destruct Hin as (c & Hc & Hin). apply Exists_exists. exists c.
    split; [exact Hin | now exists e'].
Qed.

(** One failed lookup among two collaterals: the reward is NaN. *)
Lemma C7_reward_never_partial_witness :
  (getRewardPrice (Fixture.node []) ["63@DFI"; "1000@DOGE"]%string = Ok BigNumber.NaN
   /\ Forall (fun c => exists p, collateralPrice (Fixture.node []) c = Ok p)
        ["63@DFI"; "1000@DOGE"]%string)
  \/ (exists e, getRewardPrice (Fixture.node []) ["63@DFI"; "1000@DOGE"]%string = Throw e
      /\ Exists (fun c => exists e', collateralPrice (Fixture.node []) c = Throw e')
           ["63@DFI"; "1000@DOGE"]%string).
Proof.
  apply (C7_reward_never_partial (Fixture.node []) ["63@DFI"; "1000@DOGE"]%string).
  right. left. left. reflexivity.
Defined.

(** ** The handlers *)

Lemma mapThrowing_Ok {A B : Type} (f : A -> result B) (xs : list A) (ys : list B) :
  mapThrowing f xs = Ok ys <-> Forall2 (fun x y => f x = Ok y) xs ys.
Proof.
  revert ys. induction xs as [| x xs IH]; intros ys; simpl.
  - split.
    + intros [= <-]. constructor.
    + intros H. inversion H. reflexivity.
  - destruct (f x) as [y | e] eqn:E; simpl.
    + destruct (mapThrowing f xs) as [l | e']; simpl.
      * split.
        -- intros [= <-]. constructor; [exact E | exact (proj1 (IH l) eq_refl)].
        -- intros H. inversion H as [| ? y' ? l' Hy Hl]; subst.
           assert (y' = y) as -> by congruence.
           apply (proj2 (IH l')) in Hl. now injection Hl as <-.
      * split; [discriminate |].
        intros H. inversion H as [| ? y' ? l' Hy Hl]; subst.
        apply (proj2 (IH l')) in Hl. discriminate.
    + split; [discriminate |].
      intros H. inversion H; subst. congruence.
Qed.

Lemma getMaxPrice_returns (client : Client) (amount : JsValue) (symbol : option string) :
  exists maxPrice, Strict.getMaxPrice client amount symbol = Ok maxPrice.
Proof.
  unfold Strict.getMaxPrice.
  destruct (getPoolPair client (Js.template symbol ++ "-DUSD")) as [poolPair | e]; simpl.
  - destruct (callMultipliedBy _ amount) as [p | e]; simpl; eauto.
  - eauto.
Qed.

Module LooseFacts.

Import Loose LooseSpec.

Lemma sorted_iteration_Ok (client : Client) (req : Request) (auction : Auction)
    (outcome : option Row) :
  iteration client req auction = Ok outcome <->
  exists startingBid reward,
    getStartingBid client auction = Ok startingBid
    /\ getRewardPrice client (collaterals (auctionBatch auction)) = Ok reward
    /\ outcome = if keeps req startingBid reward
                 then Some (rowOf auction startingBid reward) else None.
Proof.
  unfold iteration, keeps, rowOf.
  destruct (getStartingBid client auction) as [sb | e]; simpl.
  - destruct (getRewardPrice client (collaterals (auctionBatch auction))) as [rw | e]; simpl.
    + split.
      * intros H. exists sb, rw. repeat split.
        destruct (BigNumber.isGreaterThanOrEqualTo _ _); congruence.
      * intros (sb' & rw' & [= <-] & [= <-] & ->).
        destruct (BigNumber.isGreaterThanOrEqualTo _ _); reflexivity.
    + split; [discriminate | intros (? & ? & _ & H & _); discriminate].
  - split; [discriminate | intros (? & ? & H & _); discriminate].
Qed.

Lemma sorted_handler_Json (client : Client) (req : Request) (rows : list Row) :
  handler client req = Json rows <->
  exists auctions outcomes,
    getAvailableAuctions client (limit req) = Ok auctions
    /\ Forall2 (fun a o => iteration client req a = Ok o) auctions outcomes
    /\ rows = Js.reverse (Js.sort sortyByMargin (pushed outcomes)).
Proof.
  unfold handler, auctionRows.
  destruct (getAvailableAuctions client (limit req)) as [auctions | e]; simpl.
  - destruct (forLoop (iteration client req) auctions []) as [result | e] eqn:E; simpl.
    + apply forLoop_Ok in E. destruct E as (os & HF & ->). simpl. split.
      * intros [= <-]. now exists auctions, os.
      * intros (auctions' & os' & [= <-] & HF' & ->).
        assert (os' = os) as ->; [| reflexivity].
        clear -HF HF'. revert os' HF'.
        induction HF as [| a o l l' Ho HF IH]; intros os' HF'; inversion HF'; subst.
        -- reflexivity.
        -- f_equal; [congruence | now apply IH].
    + split; [discriminate |].
      intros (auctions' & os' & [= <-] & HF' & _).
      assert (H : forLoop (iteration client req) auctions [] = Ok ([] ++ pushed os'))
        by (apply forLoop_Ok; now exists os').
      congruence.
  - split; [discriminate | intros (? & ? & H & _); discriminate].
Qed.

Lemma sorted_handler_In (outcomes : list (option Row)) (row : Row) :
  In row (Js.reverse (Js.sort sortyByMargin (pushed outcomes))) <-> In (Some row) outcomes.
Proof.
  unfold Js.reverse. rewrite <- in_rev, <- in_pushed. split.
  - apply Permutation_in. apply Permutation_sym, sort_Permutation.
  - apply Permutation_in. apply sort_Permutation.
Qed.

End LooseFacts.

Lemma Forall2_functional {A B : Type} {f : A -> result B} {l : list A} {l1 l2 : list B} :
  Forall2 (fun a b => f a = Ok b) l l1 ->
  Forall2 (fun a b => f a = Ok b) l l2 ->
  l1 = l2.
Proof.
  intros H1. revert l2. induction H1 as [| a b l l1 Hb H1 IH]; intros l2 H2;
    inversion H2; subst.
  - reflexivity.
  - f_equal; [congruence | now apply IH].
Qed.

Module StrictFacts.

Import Strict StrictSpec.

Lemma iteration_Ok (client : Client) (req : Request) (auction : Auction)
    (outcome : option Row) :
  iteration client req auction = Ok outcome <->
  exists vault startingBid reward maxPrice,
    getVault client (auctionVaultId auction) = Ok vault
    /\ getStartingBid client vault (index (auctionBatch auction))
         (part (loanParts auction) 0) (nth_error (loanParts auction) 1) = Ok startingBid
    /\ getRewardPrice client (collaterals (auctionBatch auction)) = Ok reward
    /\ getMaxPrice client (JBig reward) (nth_error (loanParts auction) 1) = Ok maxPrice
    /\ outcome = if keeps req startingBid reward
                 then Some (rowOf auction vault startingBid reward maxPrice) else None.
Proof.
  unfold iteration, keeps, rowOf, loanParts.
  destruct (getVault client (auctionVaultId auction)) as [vault | e] eqn:Ev; simpl.
  2: { split; [discriminate | intros (? & ? & ? & ? & H & _); discriminate]. }
  destruct (getStartingBid client vault _ _ _) as [sb | e] eqn:Esb; simpl.
  2: { split; [discriminate |].
       intros (v & ? & ? & ? & [= <-] & H & _); congruence. }
  destruct (getRewardPrice client (collaterals (auctionBatch auction))) as [rw | e] eqn:Erw;
    simpl.
  2: { split; [discriminate |].
       intros (v & ? & ? & ? & [= <-] & _ & H & _); congruence. }
  destruct (getMaxPrice client (JBig rw) _) as [mp | e] eqn:Emp; simpl.
  2: { split; [discriminate |].
       intros (v & ? & ? & ? & [= <-] & _ & [= <-] & H & _). congruence. }
  split.
  - intros H. exists vault, sb, rw, mp. repeat split; try assumption.
    match goal with |- _ = if ?c then _ else _ => destruct c end; congruence.
  - intros (v & sb' & rw' & mp' & [= <-] & Hsb & [= <-] & Hmp & ->).
    assert (sb' = sb) as -> by congruence.
    assert (mp' = mp) as -> by congruence.
    match goal with |- (if ?c then _ else _) = _ => destruct c end; reflexivity.
Qed.

Lemma handler_Json (client : Client) (req : Request) (rendered : list Rendered) :
  handler client req = Json rendered <->
  exists auctions outcomes,
    getAvailableAuctions client (limit req) = Ok auctions
    /\ Forall2 (fun a o => iteration client req a = Ok o) auctions outcomes
    /\ Forall2 (fun row r => render row = Ok r) (pushed outcomes) rendered.
Proof.
  unfold handler, auctionRows.
  destruct (getAvailableAuctions client (limit req)) as [auctions | e]; simpl.
  - destruct (forLoop (iteration client req) auctions []) as [result | e] eqn:E; simpl.
    + apply forLoop_Ok in E. destruct E as (os & HF & ->). simpl.
      destruct (mapThrowing render (pushed os)) as [rs | e] eqn:Er.
      * apply mapThrowing_Ok in Er. split.
        -- intros [= <-]. now exists auctions, os.
        -- intros (auctions' & os' & [= <-] & HF' & Hr).
           rewrite (Forall2_functional HF' HF) in Hr.
           now rewrite (Forall2_functional Hr Er).
      * split; [discriminate |].
        intros (auctions' & os' & [= <-] & HF' & Hr).
        rewrite (Forall2_functional HF' HF) in Hr.
        apply mapThrowing_Ok in Hr. congruence.
    + split; [discriminate |].
      intros (auctions' & os' & [= <-] & HF' & _).
      assert (H : forLoop (iteration client req) auctions [] = Ok ([] ++ pushed os'))
        by (apply forLoop_Ok; now exists os').
      congruence.
  - split; [discriminate | intros (? & ? & H & _); discriminate].
Qed.

End StrictFacts.

(** ** Order of the answer *)

Lemma sortyByMargin_before (a b : Loose.Row) :
  notNaN (Loose.margin a) -> notNaN (Loose.margin b) ->
  (Loose.sortyByMargin a b <=? 0) = true ->
  BigNumber.isGreaterThanOrEqualTo (Loose.margin a) (Loose.margin b) = true.
Proof.
  intros Ha Hb. unfold Loose.sortyByMargin.
  destruct (BigNumber.isGreaterThan (Loose.margin a) (Loose.margin b)) eqn:E1.
  - intros _. now apply BigNumberFacts.greater_ge.
  - destruct (BigNumber.isGreaterThan (Loose.margin b) (Loose.margin a)) eqn:E2.
    + discriminate.
    + intros _. now apply BigNumberFacts.notGreater_ge.
Qed.

Lemma sortyByMargin_after (a b : Loose.Row) :
  notNaN (Loose.margin a) -> notNaN (Loose.margin b) ->
  (Loose.sortyByMargin a b <=? 0) = false ->
  BigNumber.isGreaterThanOrEqualTo (Loose.margin b) (Loose.margin a) = true.
Proof.
  intros Ha Hb. unfold Loose.sortyByMargin.
  destruct (BigNumber.isGreaterThan (Loose.margin a) (Loose.margin b)) eqn:E1.
  - discriminate.
  - destruct (BigNumber.isGreaterThan (Loose.margin b) (Loose.margin a)) eqn:E2.
    + intros _. now apply BigNumberFacts.greater_ge.
    + discriminate.
Qed.

(** Every row that the loop pushes has a margin that is a number. *)
Lemma pushed_margin_notNaN (client : Client) (req : Request)
    (auctions : list Auction) (outcomes : list (option Loose.Row)) :
  Forall2 (fun a o => Loose.iteration client req a = Ok o) auctions outcomes ->
  Forall (fun row => notNaN (Loose.margin row)) (pushed outcomes).
Proof.
  intros HF. apply Forall_forall. intros row Hin. apply in_pushed in Hin.
  destruct (Forall2_In_r HF Hin) as (a & _ & Ha).
  apply LooseFacts.sorted_iteration_Ok in Ha. destruct Ha as (sb & rw & _ & _ & Hrow).
  unfold LooseSpec.keeps in Hrow.
  destruct (BigNumber.isGreaterThanOrEqualTo _ _) eqn:E; [| discriminate].
  injection Hrow as ->. simpl.
  now apply BigNumberFacts.isGreaterThanOrEqualTo_notNaN in E.
Qed.

(** C2, as the claim states it, fails in both revisions: for batches with
    margins of 5, 20 and 12 percent the sorting revision answers in the
    order 5, 12, 20 and the other one in the order 5, 20, 12. *)
Lemma C2_counterexample :
  (exists rows,
      Loose.handler (Fixture.node Fixture.threeMargins) Fixture.request = Json rows
      /\ map Loose.margin rows = [BigNumber.Fin 5; BigNumber.Fin 12; BigNumber.Fin 20]
      /\ ~ descending (map Loose.margin rows))
  /\ (exists rows,
         Strict.handler (Fixture.node Fixture.threeMargins) Fixture.request = Json rows
         /\ map Strict.renderedMargin rows
            = [BigNumber.Fin 5; BigNumber.Fin 20; BigNumber.Fin 12]
         /\ ~ descending (map Strict.renderedMargin rows)).
Proof.
  split.
  - eexists. split; [vm_compute; reflexivity |]. split; [reflexivity |].
    intros H. specialize (H 0%nat 1%nat _ _ (Nat.lt_0_succ 0) eq_refl eq_refl).
    discriminate H.
  - eexists. split; [vm_compute; reflexivity |]. split; [reflexivity |].
    intros H. specialize (H 0%nat 1%nat _ _ (Nat.lt_0_succ 0) eq_refl eq_refl).
    discriminate H.
Qed.

(** C2, amended.  The revision that sorts answers in ascending order of
    margin, because it reverses the array it has sorted in descending
    order.  The revision of [src/unnamed/part_000] does not sort: its answer
    renders, in the order of the auction list, the rows of the iterations
    that pushed one. *)
Theorem C2_rows_ascending_or_in_input_order :
  (forall (client : Client) (req : Request) (rows : list Loose.Row),
      Loose.handler client req = Json rows ->
      ascending (map Loose.margin rows))
  /\ (forall (client : Client) (req : Request) (rendered : list Strict.Rendered),
         Strict.handler client req = Json rendered ->
         exists auctions outcomes,
           getAvailableAuctions client (limit req) = Ok auctions
           /\ Forall2 (fun a o => Strict.iteration client req a = Ok o) auctions outcomes
           /\ Forall2 (fun row r => Strict.render row = Ok r) (pushed outcomes) rendered).
Proof.
  split.
  - intros client req rows H.
    apply LooseFacts.sorted_handler_Json in H. destruct H as (auctions & os & _ & HF & ->).
    pose proof (pushed_margin_notNaN client req auctions os HF) as HP.
    pose proof (sort_StronglySorted Loose.sortyByMargin
                  (fun row => notNaN (Loose.margin row))
                  (fun a b => BigNumber.isGreaterThanOrEqualTo
                                (Loose.margin a) (Loose.margin b) = true)
                  (fun x y z => BigNumberFacts.ge_trans _ _ _)
                  sortyByMargin_before sortyByMargin_after _ HP) as Hs.
    apply StronglySorted_rev in Hs.
    intros i j x y Hij Hi Hj.
    rewrite nth_error_map in Hi, Hj.
    destruct (nth_error _ i) as [ri |] eqn:Ei; [| discriminate].
    destruct (nth_error _ j) as [rj |] eqn:Ej; [| discriminate].
    injection Hi as <-. injection Hj as <-.
    exact (StronglySorted_nth_error _ _ Hs i j ri rj Hij Ei Ej).
  - intros client req rendered H. now apply StrictFacts.handler_Json.
Qed.

(** Margins of 5, 20 and 12 percent: the first row of the sorted answer has
    at most the margin of the last. *)
Lemma C2_rows_ascending_or_in_input_order_witness :
  BigNumber.isGreaterThanOrEqualTo (BigNumber.Fin 20) (BigNumber.Fin 5) = true.
Proof.
  refine (proj1 C2_rows_ascending_or_in_input_order
            (Fixture.node Fixture.threeMargins) Fixture.request _ _
            0%nat 2%nat (BigNumber.Fin 5) (BigNumber.Fin 20) _ _ _).
  - vm_compute. reflexivity.
  - lia.
  - reflexivity.
  - reflexivity.
Defined.

(** ** The filter *)

(** C3, as the claim states it, fails in [src/unnamed/part_000]: a batch
    with starting bid 1.05 and reward 2 has a margin above the default
    threshold 0 and is left out, because the difference is below 1. *)
Lemma C3_counterexample :
  getAvailableAuctions (Fixture.node Fixture.smallBatch) (limit Fixture.request)
  = Ok [mkAuction "v1" (Fixture.batch 0 "0.00005@BTC" ["1@DFI"%string])]
  /\ getVault (Fixture.node Fixture.smallBatch) "v1"
     = Ok (Fixture.vaultOf Fixture.smallBatch)
  /\ Strict.getStartingBid (Fixture.node Fixture.smallBatch)
       (Fixture.vaultOf Fixture.smallBatch) 0 (JString "0.00005") (Some "BTC"%string)
     = Ok (BigNumber.fin 1.05)
  /\ getRewardPrice (Fixture.node Fixture.smallBatch) ["1@DFI"%string]
     = Ok (BigNumber.Fin 2)
  /\ BigNumber.isGreaterThanOrEqualTo
       (marginOf (BigNumber.minus (BigNumber.Fin 2) (BigNumber.fin 1.05))
          (BigNumber.fin 1.05))
       (toBig (minMarginOf Fixture.request)) = true
  /\ Strict.handler (Fixture.node Fixture.smallBatch) Fixture.request = Json [].
Proof.
  repeat split; vm_compute; reflexivity.
Qed.

(** C3, amended.  For a batch of the auction list whose starting bid and
    reward are computed, in an answer that is not the server error: the
    revision that sorts lists the batch exactly when its margin is at least
    the threshold; the revision of [src/unnamed/part_000] lists it exactly
    when, in addition, the difference is above 1 and the starting bid is
    below 8000. *)
Theorem C3_filter :
  (forall (client : Client) (req : Request) (rows : list Loose.Row)
          (auctions : list Auction) (auction : Auction)
          (startingBid reward : BigNumber.t),
      Loose.handler client req = Json rows ->
      getAvailableAuctions client (limit req) = Ok auctions ->
      In auction auctions ->
      Loose.getStartingBid client auction = Ok startingBid ->
      getRewardPrice client (collaterals (auctionBatch auction)) = Ok reward ->
      let diff := BigNumber.minus reward startingBid in
      let margin := marginOf diff startingBid in
      In (Loose.mkRow (auctionUrl (auctionVaultId auction) (index (auctionBatch auction)))
            startingBid reward diff margin) rows
      <-> BigNumber.isGreaterThanOrEqualTo margin (toBig (minMarginOf req)) = true)
  /\
  (forall (client : Client) (req : Request) (rendered : list Strict.Rendered)
          (auctions : list Auction) (auction : Auction) (vault : Vault)
          (startingBid reward : BigNumber.t),
      Strict.handler client req = Json rendered ->
      getAvailableAuctions client (limit req) = Ok auctions ->
      In auction auctions ->
      getVault client (auctionVaultId auction) = Ok vault ->
      let parts := Js.split "@" (loan (auctionBatch auction)) in
      Strict.getStartingBid client vault (index (auctionBatch auction))
        (part parts 0) (nth_error parts 1) = Ok startingBid ->
      getRewardPrice client (collaterals (auctionBatch auction)) = Ok reward ->
      let diff := BigNumber.minus reward startingBid in
      let margin := marginOf diff startingBid in
      (exists maxPrice,
          In (Strict.mkRendered
                (auctionUrl (auctionVaultId auction) (index (auctionBatch auction)))
                startingBid reward diff margin maxPrice
                (vaultLiquidationHeight vault) (nth_error parts 1) (part parts 0))
             rendered)
      <-> BigNumber.isGreaterThanOrEqualTo margin (toBig (minMarginOf req))
          && BigNumber.isGreaterThan diff (BigNumber.ofZ 1)
          && BigNumber.isLessThan startingBid (BigNumber.ofZ 8000) = true).
Proof.
  split.
  - intros client req rows auctions auction sb rw H Hav Hin Hsb Hrw diff margin.
    apply LooseFacts.sorted_handler_Json in H. destruct H as (auctions' & os & Hav' & HF & ->).
    assert (auctions' = auctions) as -> by congruence.
    rewrite LooseFacts.sorted_handler_In.
    change (BigNumber.isGreaterThanOrEqualTo margin (toBig (minMarginOf req)))
      with (LooseSpec.keeps req sb rw).
    change (Loose.mkRow _ sb rw diff margin) with (LooseSpec.rowOf auction sb rw).
    split.
    + intros Hrow. destruct (Forall2_In_r HF Hrow) as (a' & _ & Ha').
      apply LooseFacts.sorted_iteration_Ok in Ha'.
      destruct Ha' as (sb' & rw' & _ & _ & Heq).
      destruct (LooseSpec.keeps req sb' rw') eqn:K; [| discriminate].
      assert (Hsb' : sb' = sb)
        by (apply (f_equal (option_map Loose.minBid)) in Heq; simpl in Heq; congruence).
      assert (Hrw' : rw' = rw)
        by (apply (f_equal (option_map Loose.reward)) in Heq; simpl in Heq; congruence).
      now subst sb' rw'.
    + intros K. destruct (Forall2_In_l HF Hin) as (o & Ho & Hit).
      apply LooseFacts.sorted_iteration_Ok in Hit.
      destruct Hit as (sb' & rw' & Hsb' & Hrw' & ->).
      assert (sb' = sb) as -> by congruence.
      assert (rw' = rw) as -> by congruence.
      now rewrite K in Ho.
  - intros client req rendered auctions auction vault sb rw H Hav Hin Hv parts Hsb Hrw
      diff margin.
    subst parts. fold (StrictSpec.loanParts auction) in Hsb |- *.
    apply StrictFacts.handler_Json in H.
    destruct H as (auctions' & os & Hav' & HF & Hr).
    assert (auctions' = auctions) as -> by congruence.
    change (BigNumber.isGreaterThanOrEqualTo margin (toBig (minMarginOf req))
            && BigNumber.isGreaterThan diff (BigNumber.ofZ 1)
            && BigNumber.isLessThan sb (BigNumber.ofZ 8000))
      with (StrictSpec.keeps req sb rw).
    split.
    + intros (mp & Hrow). destruct (Forall2_In_r Hr Hrow) as (row & Hpushed & Hrender).
      apply in_pushed in Hpushed.
      destruct (Forall2_In_r HF Hpushed) as (a' & _ & Ha').
      apply StrictFacts.iteration_Ok in Ha'.
      destruct Ha' as (v' & sb' & rw' & mp' & _ & _ & _ & _ & Heq).
      destruct (StrictSpec.keeps req sb' rw') eqn:K; [| discriminate].
      injection Heq as ->. unfold Strict.render, StrictSpec.rowOf in Hrender.
      simpl in Hrender. destruct mp' as [price |]; [| discriminate].
      assert (Hsb' : sb' = sb)
        by (apply (f_equal (fun r => match r with Ok x => Some (Strict.renderedMinBidDusd x)
                                                | Throw _ => None end)) in Hrender;
            simpl in Hrender; congruence).
      assert (Hrw' : rw' = rw)
        by (apply (f_equal (fun r => match r with Ok x => Some (Strict.renderedReward x)
                                                | Throw _ => None end)) in Hrender;
            simpl in Hrender; congruence).
      now subst sb' rw'.
    + intros K. destruct (Forall2_In_l HF Hin) as (o & Ho & Hit).
      apply StrictFacts.iteration_Ok in Hit.
      destruct Hit as (v' & sb' & rw' & mp' & Hv' & Hsb' & Hrw' & _ & ->).
      assert (v' = vault) as -> by congruence.
      assert (sb' = sb) as -> by congruence.
      assert (rw' = rw) as -> by congruence.
      rewrite K in Ho. apply in_pushed in Ho.
      destruct (Forall2_In_l Hr Ho) as (r & Hr' & Hrender).
      unfold Strict.render, StrictSpec.rowOf in Hrender. simpl in Hrender.
      destruct mp' as [price |]; [| discriminate].
      exists price. injection Hrender as <-. exact Hr'.
Qed.

(** Starting bid 105 and reward 126, a margin of 20 percent: listed by the
    sorting revision for a threshold of 20, left out by the other revision
    for a threshold of 25. *)
Lemma C3_filter_witness :
  (exists rows,
      Loose.handler (Fixture.node Fixture.threeMargins) Fixture.request20 = Json rows
      /\ In (Loose.mkRow "https://defiscan.live/vaults/v1/auctions/1"
               (BigNumber.Fin 105) (BigNumber.Fin 126) (BigNumber.Fin 21)
               (BigNumber.Fin 20)) rows)
  /\ (exists rendered,
         Strict.handler (Fixture.node Fixture.threeMargins) Fixture.request25
         = Json rendered
         /\ ~ exists maxPrice,
               In (Strict.mkRendered "https://defiscan.live/vaults/v1/auctions/1"
                     (BigNumber.Fin 105) (BigNumber.Fin 126) (BigNumber.Fin 21)
                     (BigNumber.Fin 20) maxPrice (Some 2000000)
                     (Some "BTC"%string) (JString "0.005")) rendered).
Proof.
  split.
  - eexists. split; [vm_compute; reflexivity |].
    refine (proj2 (proj1 C3_filter (Fixture.node Fixture.threeMargins) Fixture.request20
                     _ _ (mkAuction "v1" (Fixture.batch 1 "0.005@BTC" ["63@DFI"%string]))
                     (BigNumber.Fin 105) (BigNumber.Fin 126) _ _ _ _ _) _).
    + vm_compute. reflexivity.
    + vm_compute. reflexivity.
    + right. left. reflexivity.
    + vm_compute. reflexivity.
    + vm_compute. reflexivity.
    + vm_compute. reflexivity.
  - eexists. split; [vm_compute; reflexivity |].
    intros Hrow.
    assert (K : BigNumber.isGreaterThanOrEqualTo (BigNumber.Fin 20) (BigNumber.Fin 25)
                && BigNumber.isGreaterThan (BigNumber.Fin 21) (BigNumber.Fin 1)
                && BigNumber.isLessThan (BigNumber.Fin 105) (BigNumber.Fin 8000) = true).
    { refine (proj1 (proj2 C3_filter (Fixture.node Fixture.threeMargins)
                       Fixture.request25 _ _
                       (mkAuction "v1" (Fixture.batch 1 "0.005@BTC" ["63@DFI"%string]))
                       (Fixture.vaultOf Fixture.threeMargins)
                       (BigNumber.Fin 105) (BigNumber.Fin 126) _ _ _ _ _ _) Hrow).
      - vm_compute. reflexivity.
      - vm_compute. reflexivity.
      - right. left. reflexivity.
      - vm_compute. reflexivity.
      - vm_compute. reflexivity.
      - vm_compute. reflexivity. }
    vm_compute in K. discriminate K.
Defined.

(** ** Failures of the node *)

Lemma getAvailableAuctions_Throw (client : Client) (lim : option Z) (e : Error) :
  listAuctions client lim = Throw e -> getAvailableAuctions client lim = Throw e.
Proof. intros H. unfold getAvailableAuctions. now rewrite H. Qed.

Lemma Strict_handler_iteration_Throw (client : Client) (req : Request)
    (auctions : list Auction) (auction : Auction) (e : Error) :
  getAvailableAuctions client (limit req) = Ok auctions ->
  In auction auctions ->
  Strict.iteration client req auction = Throw e ->
  Strict.handler client req = Failure 500 "Internal Server Error".
Proof.
  intros Hav Hin Hit. unfold Strict.handler, Strict.auctionRows. rewrite Hav. simpl.
  destruct (forLoop_Throw (Strict.iteration client req) auctions [] auction e Hin Hit)
    as (e' & ->).
  reflexivity.
Qed.

Lemma Loose_handler_iteration_Throw (client : Client) (req : Request)
    (auctions : list Auction) (auction : Auction) (e : Error) :
  getAvailableAuctions client (limit req) = Ok auctions ->
  In auction auctions ->
  Loose.iteration client req auction = Throw e ->
  Loose.handler client req = Failure 500 "Internal Server Error".
Proof.
  intros Hav Hin Hit. unfold Loose.handler, Loose.auctionRows. rewrite Hav. simpl.
  destruct (forLoop_Throw (Loose.iteration client req) auctions [] auction e Hin Hit)
    as (e' & ->).
  reflexivity.
Qed.

(** C4, as the claim states it, fails in the revision that has
    [getHighestBidSoFar]: every [getVault] call fails and the answer is a
    list of three rows. *)
Lemma C4_counterexample :
  ~ (forall (client : Client) (req : Request) (auctions : list Auction)
            (auction : Auction) (e : Error),
        getAvailableAuctions client (limit req) = Ok auctions ->
        In auction auctions ->
        getVault client (auctionVaultId auction) = Throw e ->
        Loose.handler client req = Failure 500 "Internal Server Error").
Proof.
  intros H.
  specialize (H (Fixture.nodeWithoutVaults Fixture.threeMargins) Fixture.request
                _ (mkAuction "v1" (Fixture.batch 0 "0.005@BTC" ["55.125@DFI"%string]))
                Fixture.connectionRefused eq_refl (or_introl eq_refl) eq_refl).
  vm_compute in H. discriminate H.
Qed.

(** C4, amended.  In [src/unnamed/part_000] a failing [listAuctions] and a
    failing [getVault] for a listed batch both end the request with status
    500 and the body [Internal Server Error].  In the revision that has
    [getHighestBidSoFar] a failing [listAuctions] does the same, while a
    failing [getVault] is caught: the batch is valued as one without bids. *)
Theorem C4_upstream_failures :
  (forall (client : Client) (req : Request) (e : Error),
      listAuctions client (limit req) = Throw e ->
      Strict.handler client req = Failure 500 "Internal Server Error")
  /\ (forall (client : Client) (req : Request) (auctions : list Auction)
             (auction : Auction) (e : Error),
         getAvailableAuctions client (limit req) = Ok auctions ->
         In auction auctions ->
         getVault client (auctionVaultId auction) = Throw e ->
         Strict.handler client req = Failure 500 "Internal Server Error")
  /\ (forall (client : Client) (req : Request) (e : Error),
         listAuctions client (limit req) = Throw e ->
         Loose.handler client req = Failure 500 "Internal Server Error")
  /\ (forall (client : Client) (auction : Auction) (e : Error) (p : BigNumber.t),
         getVault client (auctionVaultId auction) = Throw e ->
         let parts := Js.split "@" (loan (auctionBatch auction)) in
         getPriceInDUSD client (part parts 0) (nth_error parts 1) = Ok (Some p) ->
         Loose.getHighestBidSoFar client (auctionVaultId auction)
           (index (auctionBatch auction)) = Ok None
         /\ Loose.getStartingBid client auction
            = Ok (BigNumber.multipliedBy p (BigNumber.fin 1.05))).
Proof.
  split; [| split; [| split]].
  - intros client req e H. unfold Strict.handler, Strict.auctionRows.
    now rewrite (getAvailableAuctions_Throw _ _ _ H).
  - intros client req auctions auction e Hav Hin Hv.
    apply (Strict_handler_iteration_Throw client req auctions auction e Hav Hin).
    unfold Strict.iteration. now rewrite Hv.
  - intros client req e H. unfold Loose.handler, Loose.auctionRows.
    now rewrite (getAvailableAuctions_Throw _ _ _ H).
  - intros client auction e p Hv parts Hp.
    assert (Hbid : Loose.getHighestBidSoFar client (auctionVaultId auction)
                     (index (auctionBatch auction)) = Ok None)
      by (unfold Loose.getHighestBidSoFar; now rewrite Hv).
    split; [exact Hbid |].
    unfold Loose.getStartingBid. rewrite Hbid.
    subst parts. cbv beta iota zeta delta [bind]. rewrite Hp. reflexivity.
Qed.

(** The node whose [getVault] is out of order: the revision of
    [src/unnamed/part_000] answers with the server error. *)
Lemma C4_upstream_failures_witness :
  Strict.handler (Fixture.nodeWithoutVaults Fixture.threeMargins) Fixture.request
  = Failure 500 "Internal Server Error".
Proof.
  exact (proj1 (proj2 C4_upstream_failures)
           (Fixture.nodeWithoutVaults Fixture.threeMargins) Fixture.request
           _ (mkAuction "v1" (Fixture.batch 0 "0.005@BTC" ["55.125@DFI"%string]))
           Fixture.connectionRefused eq_refl (or_introl eq_refl) eq_refl).
Defined.

(** ** The margin *)

Lemma marginOf_Inf (a : bool) (q : Q) :
  BigNumber.isZeroQ q = true ->
  marginOf (BigNumber.Inf a) (BigNumber.Fin q) = BigNumber.Inf a.
Proof.
  intros Hq. unfold marginOf. simpl.
  assert (Hneg : BigNumber.isNegQ q = false).
  { unfold BigNumber.isNegQ, BigNumber.isZeroQ in *.
    apply Z.eqb_eq in Hq. rewrite Hq. reflexivity. }
  rewrite Hneg. now destruct a.
Qed.

(** The margin over a starting bid of zero. *)
Lemma marginOf_zero_bid (reward : BigNumber.t) (q : Q) :
  BigNumber.isZeroQ q = true ->
  marginOf (BigNumber.minus reward (BigNumber.Fin q)) (BigNumber.Fin q)
  = match reward with
    | BigNumber.Fin r =>
        if BigNumber.isZeroQ r then BigNumber.NaN else BigNumber.Inf (BigNumber.isNegQ r)
    | BigNumber.Inf a => BigNumber.Inf a
    | BigNumber.NaN => BigNumber.NaN
    end.
Proof.
  intros Hq. destruct reward as [r | a |].
  - assert (Hx : (Qred (r + Qred (- q)) == r)%Q).
    { rewrite !Qred_correct. apply BigNumberFacts.isZeroQ_spec in Hq.
      rewrite Hq. ring. }
    change (BigNumber.minus (BigNumber.Fin r) (BigNumber.Fin q))
      with (BigNumber.Fin (Qred (r + Qred (- q)))).
    unfold marginOf, BigNumber.dividedBy. rewrite Hq.
    rewrite (BigNumberFacts.isZeroQ_ext _ _ Hx), (BigNumberFacts.isNegQ_ext _ _ Hx).
    destruct (BigNumber.isZeroQ r); [reflexivity |].
    simpl. now destruct (BigNumber.isNegQ r).
  - now apply marginOf_Inf.
  - reflexivity.
Qed.

(** C9, as the claim states it, fails in both revisions: for a loan of
    nothing the starting bid is zero, the division is performed, the margin
    is plus infinity and the batch is listed. *)
Lemma C9_counterexample :
  (exists row,
      Loose.handler (Fixture.node Fixture.zeroLoan) Fixture.request = Json [row]
      /\ Loose.minBid row = BigNumber.zero
      /\ Loose.margin row = BigNumber.Inf false)
  /\ (exists row,
         Strict.handler (Fixture.node Fixture.zeroLoan) Fixture.request = Json [row]
         /\ Strict.renderedMinBidDusd row = BigNumber.zero
         /\ Strict.renderedMargin row = BigNumber.Inf false).
Proof.
  split; eexists; (split; [vm_compute; reflexivity | split; reflexivity]).
Qed.

(** C9, amended.  In every row of an answer of either revision the margin
    is [(reward - startingBid).dividedBy(startingBid).multipliedBy(100)].
    No test on the starting bid precedes the division: over a starting bid
    of zero the margin is NaN for a reward of zero, and otherwise the
    infinity with the sign of the reward. *)
Theorem C9_margin_formula :
  (forall (client : Client) (req : Request) (rows : list Loose.Row) (row : Loose.Row),
      Loose.handler client req = Json rows -> In row rows ->
      Loose.margin row
      = BigNumber.multipliedBy
          (BigNumber.dividedBy (BigNumber.minus (Loose.reward row) (Loose.minBid row))
             (Loose.minBid row))
          (BigNumber.ofZ 100))
  /\ (forall (client : Client) (req : Request) (rendered : list Strict.Rendered)
             (row : Strict.Rendered),
         Strict.handler client req = Json rendered -> In row rendered ->
         Strict.renderedMargin row
         = BigNumber.multipliedBy
             (BigNumber.dividedBy
                (BigNumber.minus (Strict.renderedReward row) (Strict.renderedMinBidDusd row))
                (Strict.renderedMinBidDusd row))
             (BigNumber.ofZ 100))
  /\ (forall (reward : BigNumber.t) (q : Q),
         BigNumber.isZeroQ q = true ->
         marginOf (BigNumber.minus reward (BigNumber.Fin q)) (BigNumber.Fin q)
         = match reward with
           | BigNumber.Fin r =>
               if BigNumber.isZeroQ r then BigNumber.NaN
               else BigNumber.Inf (BigNumber.isNegQ r)
           | BigNumber.Inf a => BigNumber.Inf a
           | BigNumber.NaN => BigNumber.NaN
           end).
Proof.
  split; [| split].
  - intros client req rows row H Hin.
    apply LooseFacts.sorted_handler_Json in H. destruct H as (auctions & os & _ & HF & ->).
    apply LooseFacts.sorted_handler_In in Hin.
    destruct (Forall2_In_r HF Hin) as (a & _ & Ha).
    apply LooseFacts.sorted_iteration_Ok in Ha. destruct Ha as (sb & rw & _ & _ & Heq).
    destruct (LooseSpec.keeps req sb rw); [| discriminate].
    injection Heq as ->. reflexivity.
  - intros client req rendered row H Hin.
    apply StrictFacts.handler_Json in H. destruct H as (auctions & os & _ & HF & Hr).
    destruct (Forall2_In_r Hr Hin) as (pushedRow & Hpushed & Hrender).
    apply in_pushed in Hpushed.
    destruct (Forall2_In_r HF Hpushed) as (a & _ & Ha).
    apply StrictFacts.iteration_Ok in Ha.
    destruct Ha as (v & sb & rw & mp & _ & _ & _ & _ & Heq).
    destruct (StrictSpec.keeps req sb rw); [| discriminate].
    injection Heq as ->. unfold Strict.render, StrictSpec.rowOf in Hrender.
    simpl in Hrender. destruct mp as [price |]; [| discriminate].
    injection Hrender as <-. reflexivity.
  - exact marginOf_zero_bid.
Qed.

(** A starting bid of zero and a reward of 20 DUSD: the margin is plus
    infinity. *)
Lemma C9_margin_formula_witness :
  marginOf (BigNumber.minus (BigNumber.Fin 20) (BigNumber.Fin 0)) (BigNumber.Fin 0)
  = BigNumber.Inf false.
Proof.
  exact (proj2 (proj2 C9_margin_formula) (BigNumber.Fin 20) 0%Q eq_refl).
Defined.

(** ** A failed price lookup *)

(** C1, on the code.  [getPriceInDUSD] catches the error of a lookup and
    returns [null]; [getStartingBid] calls [multipliedBy] on that [null].
    Thus, in both revisions, a listed batch whose loan symbol cannot be
    priced makes the whole request fail with status 500, whatever the other
    batches are. *)
Theorem C1_unpriced_loan_fails_request :
  forall (client : Client) (req : Request) (auctions : list Auction) (auction : Auction),
    getAvailableAuctions client (limit req) = Ok auctions ->
    In auction auctions ->
    (forall amount,
        getPriceInDUSD client amount
          (nth_error (Js.split "@" (loan (auctionBatch auction))) 1) = Ok None) ->
    Loose.handler client req = Failure 500 "Internal Server Error"
    /\ Strict.handler client req = Failure 500 "Internal Server Error".
Proof.
  intros client req auctions auction Hav Hin Hnull. split.
  - assert (Hit : exists e, Loose.iteration client req auction = Throw e).
    { unfold Loose.iteration, Loose.getStartingBid.
      destruct (Loose.getHighestBidSoFar client _ _) as [[bid |] | e] eqn:E; simpl.
      - rewrite Hnull. simpl. eauto.
      - rewrite Hnull. simpl. eauto.
      - eauto. }
    destruct Hit as (e & Hit).
    exact (Loose_handler_iteration_Throw client req auctions auction e Hav Hin Hit).
  - assert (Hit : exists e, Strict.iteration client req auction = Throw e).
    { unfold Strict.iteration, Strict.getStartingBid.
      destruct (getVault client (auctionVaultId auction)) as [vault | e]; simpl; [| eauto].
      destruct (highestBidOf vault _) as [bid |]; rewrite Hnull; simpl; eauto. }
    destruct Hit as (e & Hit).
    exact (Strict_handler_iteration_Throw client req auctions auction e Hav Hin Hit).
Qed.

(** The failing input of C1: the loan of the first batch is in DOGE, whose
    pool lookup is refused; the second batch is sound.  Both revisions
    answer with the server error. *)
Lemma C1_unpriced_loan_fails_request_witness :
  Loose.handler (Fixture.node Fixture.brokenLoanFirst) Fixture.request
  = Failure 500 "Internal Server Error"
  /\ Strict.handler (Fixture.node Fixture.brokenLoanFirst) Fixture.request
     = Failure 500 "Internal Server Error".
Proof.
  apply (C1_unpriced_loan_fails_request (Fixture.node Fixture.brokenLoanFirst)
           Fixture.request (map (mkAuction "v1") Fixture.brokenLoanFirst)
           (mkAuction "v1" (Fixture.batch 0 "1000@DOGE" ["63@DFI"%string]))).
  - vm_compute. reflexivity.
  - left. reflexivity.
  - intros amount. vm_compute. reflexivity.
Defined.

(** On the same node the lookup is the one that [getPriceInDUSD] logs and
    answers with [null], and the second batch alone is listed. *)
Lemma unpriced_loan_details :
  getPoolPair (Fixture.node Fixture.brokenLoanFirst) "DOGE-DUSD"
  = Throw Fixture.connectionRefused
  /\ Js.includes (message Fixture.connectionRefused) "Pool not found" = false
  /\ getPriceInDUSD (Fixture.node Fixture.brokenLoanFirst) (JString "1000")
       (Some "DOGE"%string) = Ok None
  /\ Loose.handler (Fixture.node (tl Fixture.brokenLoanFirst)) Fixture.request
     = Json [Loose.mkRow "https://defiscan.live/vaults/v1/auctions/1"
               (BigNumber.Fin 105) (BigNumber.Fin 126) (BigNumber.Fin 21)
               (BigNumber.Fin 20)].
Proof. repeat split; vm_compute; reflexivity. Qed.

(** When the lookup that fails is the one of a collateral, the reward is
    NaN, the margin test is false and only that batch is left out. *)
Lemma unpriced_collateral_is_skipped :
  Loose.handler (Fixture.node Fixture.brokenCollateralFirst) Fixture.request
  = Json [Loose.mkRow "https://defiscan.live/vaults/v1/auctions/1"
            (BigNumber.Fin 105) (BigNumber.Fin 126) (BigNumber.Fin 21)
            (BigNumber.Fin 20)]
  /\ exists rendered,
       Strict.handler (Fixture.node Fixture.brokenCollateralFirst) Fixture.request
       = Json rendered
       /\ map Strict.renderedUrl rendered
          = ["https://defiscan.live/vaults/v1/auctions/1"%string].
Proof.
  split; [vm_compute; reflexivity |].
  eexists. split; vm_compute; reflexivity.
Qed.

(** * Further properties of the code *)

(** ** Listing the batches *)

Lemma fold_left_app_flat_map {A B : Type} (f : A -> list B) (l : list A) (acc : list B) :
  fold_left (fun acc x => acc ++ f x) l acc = acc ++ flat_map f l.
Proof.
  revert acc. induction l as [| x l IH]; intros acc; simpl.
  - now rewrite app_nil_r.
  - rewrite IH. now rewrite <- app_assoc.
Qed.

Lemma getAvailableAuctions_flat_map (client : Client) (lim : option Z)
    (vaults : list VaultLiquidation) :
  listAuctions client lim = Ok vaults ->
  getAvailableAuctions client lim
  = Ok (flat_map (fun v => map (mkAuction (vaultId v)) (batches v)) vaults).
Proof.
  intros H. unfold getAvailableAuctions. rewrite H. simpl. f_equal.
  apply (fold_left_app_flat_map
           (fun v => map (mkAuction (vaultId v)) (batches v)) vaults []).
Qed.

(** X1.  [getAvailableAuctions] returns the batches of the listed vaults in
    the order of the listing, each with the id of its own vault: an auction
    is in the result exactly when its batch is a batch of a listed vault
    with that id. *)
Theorem getAvailableAuctions_flattens :
  forall (client : Client) (lim : option Z) (vaults : list VaultLiquidation),
    listAuctions client lim = Ok vaults ->
    getAvailableAuctions client lim
    = Ok (flat_map (fun v => map (mkAuction (vaultId v)) (batches v)) vaults)
    /\ forall auctions, getAvailableAuctions client lim = Ok auctions ->
         List.length auctions
         = fold_right (fun v n => (List.length (batches v) + n)%nat) 0%nat vaults
         /\ forall a, In a auctions <->
              exists v, In v vaults
                        /\ auctionVaultId a = vaultId v
                        /\ In (auctionBatch a) (batches v).
Proof.
  intros client lim vaults H.
  pose proof (getAvailableAuctions_flat_map client lim vaults H) as E.
  split; [exact E |].
  intros auctions Hav. rewrite E in Hav. injection Hav as <-. split.
  - clear. induction vaults as [| v vaults IH]; simpl; [reflexivity |].
    now rewrite length_app, length_map, IH.
  - intros a. rewrite in_flat_map. split.
    + intros (v & Hv & Ha). apply in_map_iff in Ha. destruct Ha as (b & <- & Hb).
      exists v. simpl. auto.
    + intros (v & Hv & Hid & Hb). exists v. split; [exact Hv |].
      apply in_map_iff. exists (auctionBatch a). split; [| exact Hb].
      rewrite <- Hid. now destruct a.
Qed.

Lemma getAvailableAuctions_flattens_witness :
  getAvailableAuctions (Fixture.node Fixture.threeMargins) (Some 10)
  = Ok (map (mkAuction "v1") Fixture.threeMargins).
Proof.
  refine (eq_trans (proj1 (getAvailableAuctions_flattens
                             (Fixture.node Fixture.threeMargins) (Some 10) _ eq_refl)) _).
  vm_compute. reflexivity.
Defined.

(** X2.  When no listed vault has a batch, in particular when the listing
    is empty, both revisions answer with the empty list and not with an
    error. *)
Theorem no_batches_empty_answer :
  forall (client : Client) (req : Request) (vaults : list VaultLiquidation),
    listAuctions client (limit req) = Ok vaults ->
    Forall (fun v => batches v = []) vaults ->
    Loose.handler client req = Json [] /\ Strict.handler client req = Json [].
Proof.
  intros client req vaults H Hempty.
  assert (E : getAvailableAuctions client (limit req) = Ok []).
  { rewrite (getAvailableAuctions_flat_map client (limit req) vaults H).
    f_equal. clear H. induction Hempty as [| v vs Hv _ IH]; simpl; [reflexivity |].
    now rewrite Hv, IH. }
  split.
  - unfold Loose.handler, Loose.auctionRows. now rewrite E.
  - unfold Strict.handler, Strict.auctionRows. now rewrite E.
Qed.

Lemma no_batches_empty_answer_witness :
  Loose.handler (Fixture.node []) Fixture.request = Json []
  /\ Strict.handler (Fixture.node []) Fixture.request = Json [].
Proof.
  apply (no_batches_empty_answer (Fixture.node []) Fixture.request
           [mkVaultLiquidation "v1" 2000000 []]).
  - vm_compute. reflexivity.
  - repeat constructor.
Defined.

(** ** The price oracle, path by path *)

(** X3.  The price of an amount of DFI is the ratio reserveA/reserveB of
    the pool [DUSD-DFI] times the amount; no other pool is looked at. *)
Theorem getPriceInDUSD_DFI :
  forall (client : Client) (amount : JsValue) (id : string) (info : PoolPairInfo)
         (rest : PoolPairsResult) (r : BigNumber.t),
    getPoolPair client "DUSD-DFI" = Ok ((id, info) :: rest) ->
    reserveA_reserveB info = JBig r ->
    getPriceInDUSD client amount (Some "DFI"%string)
    = Ok (Some (BigNumber.multipliedBy r (toBig amount))).
Proof.
  intros client amount id info rest r Hpool Hr.
  unfold getPriceInDUSD. simpl Js.strictEq. cbv beta iota.
  rewrite Hpool. simpl. rewrite Hr. reflexivity.
Qed.

(** Ten DFI at 2 DUSD are 20 DUSD. *)
Lemma getPriceInDUSD_DFI_witness :
  getPriceInDUSD (Fixture.node []) (JString "10") (Some "DFI"%string)
  = Ok (Some (BigNumber.Fin 20)).
Proof.
  refine (eq_trans (getPriceInDUSD_DFI (Fixture.node []) (JString "10") "17" _ []
                      (BigNumber.Fin 2) eq_refl eq_refl) _).
  vm_compute. reflexivity.
Defined.

(** X4.  The price of an amount of another symbol whose pool with DUSD
    answers is the ratio reserveB/reserveA of that pool times the amount,
    whatever the other pools are. *)
Theorem getPriceInDUSD_direct :
  forall (client : Client) (amount : JsValue) (symbol id : string)
         (info : PoolPairInfo) (rest : PoolPairsResult) (r : BigNumber.t),
    symbol <> "DFI"%string ->
    getPoolPair client (symbol ++ "-DUSD") = Ok ((id, info) :: rest) ->
    reserveB_reserveA info = JBig r ->
    getPriceInDUSD client amount (Some symbol)
    = Ok (Some (BigNumber.multipliedBy r (toBig amount))).
Proof.
  intros client amount symbol id info rest r Hsym Hpool Hr.
  unfold getPriceInDUSD. simpl Js.strictEq. simpl Js.template.
  apply String.eqb_neq in Hsym. rewrite Hsym, Hpool. simpl. rewrite Hr. reflexivity.
Qed.

(** 0.005 BTC at 20000 DUSD are 100 DUSD. *)
Lemma getPriceInDUSD_direct_witness :
  getPriceInDUSD (Fixture.node []) (JString "0.005") (Some "BTC"%string)
  = Ok (Some (BigNumber.Fin 100)).
Proof.
  refine (eq_trans (getPriceInDUSD_direct (Fixture.node []) (JString "0.005") "BTC" "21"
                      _ [] (BigNumber.Fin 20000) _ eq_refl eq_refl) _).
  - discriminate.
  - vm_compute. reflexivity.
Defined.

(** X5.  When the first lookup fails with an error whose message does not
    contain [Pool not found], [getPriceInDUSD] does not throw and does not
    try the path through DFI: it returns [null]. *)
Theorem getPriceInDUSD_lookup_error_null :
  forall (client : Client) (amount : JsValue) (symbol : option string) (e : Error),
    getPoolPair client (directPool symbol) = Throw e ->
    Js.includes (message e) "Pool not found" = false ->
    getPriceInDUSD client amount symbol = Ok None.
Proof.
  intros client amount symbol e Hpool Hmsg.
  unfold getPriceInDUSD, directPool in *.
  destruct (Js.strictEq symbol "DFI"); rewrite Hpool; simpl;
    unfold getPriceInDUSD_catch; now rewrite Hmsg.
Qed.

Lemma getPriceInDUSD_lookup_error_null_witness :
  getPriceInDUSD (Fixture.node []) (JString "1000") (Some "DOGE"%string) = Ok None.
Proof.
  apply (getPriceInDUSD_lookup_error_null (Fixture.node []) (JString "1000")
           (Some "DOGE"%string) Fixture.connectionRefused).
  - vm_compute. reflexivity.
  - vm_compute. reflexivity.
Defined.

(** X6.  When the first lookup answers with an object without pools, or
    with a first pool whose ratio is not a BigNumber, the [TypeError] of
    [rate.multipliedBy] is caught like a lookup error: the price is
    [null]. *)
Theorem getPriceInDUSD_malformed_pool_null :
  forall (client : Client) (amount : JsValue) (symbol : option string)
         (poolPair : PoolPairsResult),
    getPoolPair client (directPool symbol) = Ok poolPair ->
    (forall b,
        first (map (fun e => if Js.strictEq symbol "DFI"
                             then reserveA_reserveB (snd e)
                             else reserveB_reserveA (snd e)) poolPair) <> JBig b) ->
    getPriceInDUSD client amount symbol = Ok None.
Proof.
  intros client amount symbol poolPair Hpool Hrate.
  unfold getPriceInDUSD, directPool in *.
  destruct (Js.strictEq symbol "DFI"); rewrite Hpool; simpl;
    match goal with
    | |- context [callMultipliedBy ?rate amount] =>
        destruct rate as [| | s | z | b] eqn:E;
          try reflexivity; exfalso; exact (Hrate b eq_refl)
    end.
Qed.

(** A pool answer without pools gives no price. *)
Lemma getPriceInDUSD_malformed_pool_null_witness :
  getPriceInDUSD (mkClient (fun _ => Ok []) (fun _ => Throw Fixture.connectionRefused)
                    (fun _ => Ok []))
    (JString "1") (Some "BTC"%string) = Ok None.
Proof.
  apply (getPriceInDUSD_malformed_pool_null _ (JString "1") (Some "BTC"%string) []).
  - reflexivity.
  - intros b. vm_compute. discriminate.
Defined.



(** X8.  For DFI there is no second path: when the pool [DUSD-DFI] is
    reported as not found, the price of DFI is not [null]; the call
    throws. *)
Theorem getPriceInDUSD_DFI_not_found_throws :
  forall (client : Client) (amount : JsValue) (e : Error),
    getPoolPair client "DUSD-DFI" = Throw e ->
    Js.includes (message e) "Pool not found" = true ->
    exists e', getPriceInDUSD client amount (Some "DFI"%string) = Throw e'.
Proof.
  intros client amount e Hpool Hmsg.
  unfold getPriceInDUSD. simpl Js.strictEq. cbv beta iota.
  rewrite Hpool. simpl. unfold getPriceInDUSD_catch. rewrite Hmsg. simpl.
  destruct (getPoolPair client "DFI-DFI") as [pairs | e1]; rewrite ?Hpool; simpl; eauto.
Qed.

Lemma getPriceInDUSD_DFI_not_found_throws_witness :
  exists e',
    getPriceInDUSD (mkClient (fun _ => Ok []) (fun _ => Throw Fixture.connectionRefused)
                      (fun _ => Throw Fixture.poolNotFound))
      (JString "1") (Some "DFI"%string) = Throw e'.
Proof.
  apply (getPriceInDUSD_DFI_not_found_throws _ (JString "1") Fixture.poolNotFound).
  - reflexivity.
  - vm_compute. reflexivity.
Defined.

(** ** Amount strings, continued *)

Lemma split_without_separator (sep : ascii) (s : string) :
  contains sep s = false -> Js.split sep s = [s].
Proof.
  induction s as [| c s IH]; simpl; intros H.
  - reflexivity.
  - apply orb_false_iff in H. destruct H as [Hc Hs].
    rewrite Hc, (IH Hs). reflexivity.
Qed.

(** X9.  Joining the parts of [s.split('@')] with the separator gives [s]
    back: the split loses nothing, and a string with exactly the two parts
    [amount] and [symbol] is [amount@symbol]. *)
Theorem join_split :
  forall (sep : ascii) (s : string),
    joinWith sep (Js.split sep s) = s
    /\ forall (amount symbol : string),
         Js.split sep s = [amount; symbol] ->
         s = (amount ++ String sep symbol)%string.
Proof.
  intros sep s.
  assert (J : joinWith sep (Js.split sep s) = s).
  { induction s as [| c s IH]; simpl.
    - reflexivity.
    - destruct (Ascii.eqb c sep) eqn:E.
      + apply Ascii.eqb_eq in E. subst c.
        pose proof (split_nonempty sep s) as Hne.
        destruct (Js.split sep s) as [| h t]; [contradiction |].
        change (joinWith sep (EmptyString :: h :: t))
          with (String sep (joinWith sep (h :: t))).
        now rewrite IH.
      + pose proof (split_nonempty sep s) as Hne.
        destruct (Js.split sep s) as [| h t]; [contradiction |].
        destruct t as [| h' t]; simpl in *; now rewrite <- IH. }
  split; [exact J |].
  intros amount symbol H. rewrite H in J. simpl in J. now symmetry.
Qed.

Lemma join_split_witness :
  "10.5@DFI"%string = ("10.5" ++ String "@" "DFI")%string.
Proof.
  exact (proj2 (join_split "@" "10.5@DFI") "10.5"%string "DFI"%string eq_refl).
Defined.

(** X10.  [getRewardPrice] reads a collateral [amount@symbol] as that amount
    of that symbol, and ignores whatever follows a second separator. *)
Theorem collateralPrice_parts :
  forall (client : Client) (amount symbol : string),
    contains "@" amount = false ->
    contains "@" symbol = false ->
    collateralPrice client (amount ++ "@" ++ symbol)
    = getPriceInDUSD client (JString amount) (Some symbol)
    /\ forall rest : string,
         collateralPrice client (amount ++ "@" ++ symbol ++ "@" ++ rest)
         = getPriceInDUSD client (JString amount) (Some symbol).
Proof.
  intros client amount symbol Ha Hs. unfold collateralPrice. split.
  - change (amount ++ "@" ++ symbol)%string with (amount ++ String "@" symbol)%string.
    rewrite (split_app "@" amount symbol Ha), (split_without_separator "@" symbol Hs).
    reflexivity.
  - intros rest.
    change (amount ++ "@" ++ symbol ++ "@" ++ rest)%string
      with (amount ++ String "@" (symbol ++ String "@" rest))%string.
    rewrite (split_app "@" amount _ Ha), (split_app "@" symbol rest Hs).
    reflexivity.
Qed.

Lemma collateralPrice_parts_witness :
  collateralPrice (Fixture.node []) "63@DFI@ignored"
  = getPriceInDUSD (Fixture.node []) (JString "63") (Some "DFI"%string).
Proof.
  exact (proj2 (collateralPrice_parts (Fixture.node []) "63" "DFI" eq_refl eq_refl)
           "ignored"%string).
Defined.



(** ** The bid estimator, continued *)

(** X12.  For a batch with a highest bid, [getStartingBid] uses the amount
    of the bid and the symbol of the loan only: the symbol written in the
    bid string, the owner of the bid and the amount of the loan do not
    change the starting bid. *)
Theorem getStartingBid_ignores_bid_symbol :
  forall (client : Client) (vault1 vault2 : Vault) (index1 index2 : Z)
         (amount1 amount2 : JsValue) (symbol : option string)
         (owner1 owner2 bidAmount bidSymbol1 bidSymbol2 : string),
    contains "@" bidAmount = false ->
    highestBidOf vault1 index1
    = Some (HighestBid.make owner1 (bidAmount ++ "@" ++ bidSymbol1)) ->
    highestBidOf vault2 index2
    = Some (HighestBid.make owner2 (bidAmount ++ "@" ++ bidSymbol2)) ->
    Strict.getStartingBid client vault1 index1 amount1 symbol
    = Strict.getStartingBid client vault2 index2 amount2 symbol.
Proof.
  intros client vault1 vault2 index1 index2 amount1 amount2 symbol
    owner1 owner2 bidAmount bidSymbol1 bidSymbol2 Ha H1 H2.
  unfold Strict.getStartingBid. rewrite H1, H2. simpl HighestBid.amount.
  change (bidAmount ++ "@" ++ bidSymbol1)%string
    with (bidAmount ++ String "@" bidSymbol1)%string.
  change (bidAmount ++ "@" ++ bidSymbol2)%string
    with (bidAmount ++ String "@" bidSymbol2)%string.
  rewrite (split_app "@" bidAmount bidSymbol1 Ha), (split_app "@" bidAmount bidSymbol2 Ha).
  reflexivity.
Qed.

(** A bid of 110 written in DFI and one written in BTC, on a loan in DFI. *)
Lemma getStartingBid_ignores_bid_symbol_witness :
  Strict.getStartingBid Fixture.parityNode Fixture.vaultWithBid 0
    (JString "100") (Some "DFI"%string)
  = Strict.getStartingBid Fixture.parityNode
      (Fixture.vaultOf
         [mkBatch 0 [] "100@DFI" (Some (HighestBid.make "other" "110@BTC"))]) 0
      (JString "7") (Some "DFI"%string).
Proof.
  exact (getStartingBid_ignores_bid_symbol Fixture.parityNode
           Fixture.vaultWithBid
           (Fixture.vaultOf
              [mkBatch 0 [] "100@DFI" (Some (HighestBid.make "other" "110@BTC"))])
           0 0 (JString "100") (JString "7") (Some "DFI"%string)
           "owner" "other" "110" "DFI" "BTC" eq_refl eq_refl eq_refl).
Defined.

(** X13.  When the vault can be fetched, [getStartingBid] of the revision
    with [getHighestBidSoFar] is [getStartingBid] of [src/unnamed/part_000]
    on that vault, the index of the batch and the two parts of its loan. *)
Theorem getStartingBid_revisions_agree :
  forall (client : Client) (auction : Auction) (vault : Vault),
    getVault client (auctionVaultId auction) = Ok vault ->
    let parts := Js.split "@" (loan (auctionBatch auction)) in
    Loose.getStartingBid client auction
    = Strict.getStartingBid client vault (index (auctionBatch auction))
        (part parts 0) (nth_error parts 1).
Proof.
  intros client auction vault Hv parts.
  unfold Loose.getStartingBid, Loose.getHighestBidSoFar, Strict.getStartingBid.
  rewrite Hv. reflexivity.
Qed.

Lemma getStartingBid_revisions_agree_witness :
  Loose.getStartingBid (Fixture.node Fixture.threeMargins)
    (mkAuction "v1" (Fixture.batch 1 "0.005@BTC" ["63@DFI"%string]))
  = Strict.getStartingBid (Fixture.node Fixture.threeMargins)
      (Fixture.vaultOf Fixture.threeMargins) 1 (JString "0.005") (Some "BTC"%string).
Proof.
  exact (getStartingBid_revisions_agree (Fixture.node Fixture.threeMargins)
           (mkAuction "v1" (Fixture.batch 1 "0.005@BTC" ["63@DFI"%string]))
           (Fixture.vaultOf Fixture.threeMargins) eq_refl).
Defined.

(** ** The maximal price *)

(** X14.  When the pool of the loan symbol with DUSD answers, [getMaxPrice]
    is the ratio reserveA/reserveB of that pool times the amount times
    0.99. *)
Theorem getMaxPrice_value :
  forall (client : Client) (amount : JsValue) (symbol : option string) (id : string)
         (info : PoolPairInfo) (rest : PoolPairsResult) (r : BigNumber.t),
    getPoolPair client (Js.template symbol ++ "-DUSD") = Ok ((id, info) :: rest) ->
    reserveA_reserveB info = JBig r ->
    Strict.getMaxPrice client amount symbol
    = Ok (Some (BigNumber.multipliedBy (BigNumber.multipliedBy r (toBig amount))
                  (BigNumber.fin 0.99))).
Proof.
  intros client amount symbol id info rest r Hpool Hr.
  unfold Strict.getMaxPrice. rewrite Hpool. simpl. rewrite Hr. reflexivity.
Qed.

(** A reward of 126 DUSD on a loan in BTC: 126 / 20000 * 0.99 BTC. *)
Lemma getMaxPrice_value_witness :
  Strict.getMaxPrice (Fixture.node []) (JBig (BigNumber.Fin 126)) (Some "BTC"%string)
  = Ok (Some (BigNumber.Fin (6237 # 1000000))).
Proof.
  refine (eq_trans (getMaxPrice_value (Fixture.node []) (JBig (BigNumber.Fin 126))
                      (Some "BTC"%string) "21" _ [] (BigNumber.Fin (1 # 20000))
                      eq_refl eq_refl) _).
  vm_compute. reflexivity.
Defined.

(** X15.  [getMaxPrice] never throws, and it has no second path: whenever
    the lookup of the pool fails, also with [Pool not found], and so for
    every loan in DFI on a node without a pool [DFI-DUSD], the maximal price
    is [null]. *)
Theorem getMaxPrice_null :
  forall (client : Client) (amount : JsValue) (symbol : option string),
    (exists maxPrice, Strict.getMaxPrice client amount symbol = Ok maxPrice)
    /\ forall e,
         getPoolPair client (Js.template symbol ++ "-DUSD") = Throw e ->
         Strict.getMaxPrice client amount symbol = Ok None.
Proof.
  intros client amount symbol. split.
  - apply getMaxPrice_returns.
  - intros e H. unfold Strict.getMaxPrice. now rewrite H.
Qed.

Lemma getMaxPrice_null_witness :
  Strict.getMaxPrice (Fixture.node []) (JBig (BigNumber.Fin 126)) (Some "DFI"%string)
  = Ok None.
Proof.
  exact (proj2 (getMaxPrice_null (Fixture.node []) (JBig (BigNumber.Fin 126))
                  (Some "DFI"%string)) Fixture.poolNotFound eq_refl).
Defined.

(** ** What is logged *)

(** X16.  [getPriceInDUSD] logs exactly when it returns [null], and then
    the one entry [getPriceInDUSD error] with the error it caught: a price,
    and a failure of the path through DFI, which is thrown, are not logged,
    and neither is [Pool not found]. *)
Theorem getPriceInDUSD_logs_iff_null :
  forall (client : Client) (amount : JsValue) (symbol : option string),
    snd (Logged.getPriceInDUSD client amount symbol)
    = getPriceInDUSD client amount symbol
    /\ (getPriceInDUSD client amount symbol = Ok None ->
        exists e, Js.includes (message e) "Pool not found" = false
                  /\ fst (Logged.getPriceInDUSD client amount symbol)
                     = [mkLogEntry "getPriceInDUSD error" e])
    /\ (getPriceInDUSD client amount symbol <> Ok None ->
        fst (Logged.getPriceInDUSD client amount symbol) = []).
Proof.
  intros client amount symbol.
  assert (Htry : getPriceInDUSD client amount symbol
                 = tryCatch (Logged.getPriceInDUSD_try client amount symbol)
                     (getPriceInDUSD_catch client amount symbol)) by reflexivity.
  assert (Hsome : forall price,
             Logged.getPriceInDUSD_try client amount symbol = Ok price -> price <> None).
  { intros price. unfold Logged.getPriceInDUSD_try.
    destruct (Js.strictEq symbol "DFI");
      (destruct (getPoolPair client _) as [poolPair | e]; simpl; [| discriminate];
       destruct (callMultipliedBy _ amount); simpl; congruence). }
  assert (Hcatch : forall e, Js.includes (message e) "Pool not found" = true ->
             getPriceInDUSD_catch client amount symbol e <> Ok None).
  { intros e He. unfold getPriceInDUSD_catch. rewrite He.
    destruct (promiseAll _) as [pairs | e1]; simpl; [| discriminate].
    destruct (callMultipliedBy _ amount); simpl; congruence. }
  rewrite Htry. unfold Logged.getPriceInDUSD, tryCatch.
  destruct (Logged.getPriceInDUSD_try client amount symbol) as [price | e] eqn:E.
  - split; [reflexivity |]. split.
    + intros H. injection H as ->. now elim (Hsome None eq_refl).
    + reflexivity.
  - destruct (Js.includes (message e) "Pool not found") eqn:He.
    + split; [reflexivity |]. split.
      * intros H. now elim (Hcatch e He).
      * reflexivity.
    + split; [simpl; unfold getPriceInDUSD_catch; now rewrite He |]. split.
      * intros _. exists e. now split.
      * intros H. elim H. unfold getPriceInDUSD_catch. now rewrite He.
Qed.

Lemma getPriceInDUSD_logs_iff_null_witness :
  exists e,
    Js.includes (message e) "Pool not found" = false
    /\ fst (Logged.getPriceInDUSD (Fixture.node []) (JString "1000") (Some "DOGE"%string))
       = [mkLogEntry "getPriceInDUSD error" e].
Proof.
  apply (proj1 (proj2 (getPriceInDUSD_logs_iff_null (Fixture.node []) (JString "1000")
                         (Some "DOGE"%string)))).
  vm_compute. reflexivity.
Defined.

(** X17.  [getMaxPrice] and [getHighestBidSoFar] log exactly when they
    return [null] in place of a failure: one entry, with the error caught;
    for [getMaxPrice] this includes the error [Pool not found]. *)
Theorem caught_errors_are_logged :
  forall (client : Client),
    (forall amount symbol,
        snd (Logged.getMaxPrice client amount symbol)
        = Strict.getMaxPrice client amount symbol
        /\ (forall e, Logged.getMaxPrice_try client amount symbol = Throw e ->
                      Logged.getMaxPrice client amount symbol
                      = ([mkLogEntry "getMaxPrice error" e], Ok None))
        /\ (forall price, Logged.getMaxPrice_try client amount symbol = Ok price ->
                          Logged.getMaxPrice client amount symbol = ([], Ok price)
                          /\ price <> None))
    /\ (forall vaultId batchIndex,
           snd (Logged.getHighestBidSoFar client vaultId batchIndex)
           = Loose.getHighestBidSoFar client vaultId batchIndex
           /\ (forall e, getVault client vaultId = Throw e ->
                         Logged.getHighestBidSoFar client vaultId batchIndex
                         = ([mkLogEntry "getVault error" e], Ok None))
           /\ (forall vault, getVault client vaultId = Ok vault ->
                             fst (Logged.getHighestBidSoFar client vaultId batchIndex)
                             = [])).
Proof.
  intros client. split.
  - intros amount symbol.
    assert (Htry : Strict.getMaxPrice client amount symbol
                   = tryCatch (Logged.getMaxPrice_try client amount symbol)
                       (fun _ => Ok None)) by reflexivity.
    rewrite Htry. unfold Logged.getMaxPrice, tryCatch.
    destruct (Logged.getMaxPrice_try client amount symbol) as [price | e] eqn:E.
    + split; [reflexivity |]. split; [discriminate |].
      intros price' [= <-]. split; [reflexivity |].
      revert E. unfold Logged.getMaxPrice_try.
      destruct (getPoolPair client _) as [poolPair | e]; simpl; [| discriminate].
      destruct (callMultipliedBy _ amount); simpl; congruence.
    + split; [reflexivity |]. split; [| discriminate].
      now intros e' [= <-].
  - intros vaultId batchIndex.
    unfold Logged.getHighestBidSoFar, Loose.getHighestBidSoFar.
    destruct (getVault client vaultId) as [vault | e]; simpl.
    + split; [reflexivity |]. split; [discriminate | reflexivity].
    + split; [reflexivity |]. split; [| discriminate].
      now intros e' [= <-].
Qed.

Lemma caught_errors_are_logged_witness :
  Logged.getMaxPrice (Fixture.node []) (JBig (BigNumber.Fin 126)) (Some "DFI"%string)
  = ([mkLogEntry "getMaxPrice error" Fixture.poolNotFound], Ok None).
Proof.
  exact (proj1 (proj2 (proj1 (caught_errors_are_logged (Fixture.node []))
                         (JBig (BigNumber.Fin 126)) (Some "DFI"%string)))
           Fixture.poolNotFound eq_refl).
Defined.

(** ** What the answers contain *)

Lemma Loose_row_kept (client : Client) (req : Request) (rows : list Loose.Row)
    (row : Loose.Row) :
  Loose.handler client req = Json rows -> In row rows ->
  exists auction startingBid reward,
    row = LooseSpec.rowOf auction startingBid reward
    /\ LooseSpec.keeps req startingBid reward = true.
Proof.
  intros H Hin.
  apply LooseFacts.sorted_handler_Json in H. destruct H as (auctions & os & _ & HF & ->).
  apply LooseFacts.sorted_handler_In in Hin.
  destruct (Forall2_In_r HF Hin) as (a & _ & Ha).
  apply LooseFacts.sorted_iteration_Ok in Ha. destruct Ha as (sb & rw & _ & _ & Heq).
  destruct (LooseSpec.keeps req sb rw) eqn:K; [| discriminate].
  injection Heq as ->. now exists a, sb, rw.
Qed.

Lemma Strict_row_kept (client : Client) (req : Request) (rendered : list Strict.Rendered)
    (r : Strict.Rendered) :
  Strict.handler client req = Json rendered -> In r rendered ->
  exists auction vault startingBid reward maxPrice,
    Strict.render (StrictSpec.rowOf auction vault startingBid reward maxPrice) = Ok r
    /\ StrictSpec.keeps req startingBid reward = true.
Proof.
  intros H Hin.
  apply StrictFacts.handler_Json in H. destruct H as (auctions & os & _ & HF & Hr).
  destruct (Forall2_In_r Hr Hin) as (row & Hpushed & Hrender).
  apply in_pushed in Hpushed.
  destruct (Forall2_In_r HF Hpushed) as (a & _ & Ha).
  apply StrictFacts.iteration_Ok in Ha.
  destruct Ha as (v & sb & rw & mp & _ & _ & _ & _ & Heq).
  destruct (StrictSpec.keeps req sb rw) eqn:K; [| discriminate].
  injection Heq as ->. now exists a, v, sb, rw, mp.
Qed.

(** X18.  Every row that the revision that sorts answers with has passed
    the margin test: its margin is a number at least the threshold, and its
    difference is its reward minus its starting bid. *)
Theorem Loose_rows_pass_filter :
  forall (client : Client) (req : Request) (rows : list Loose.Row) (row : Loose.Row),
    Loose.handler client req = Json rows -> In row rows ->
    BigNumber.isGreaterThanOrEqualTo (Loose.margin row) (toBig (minMarginOf req)) = true
    /\ notNaN (Loose.margin row)
    /\ Loose.diff row = BigNumber.minus (Loose.reward row) (Loose.minBid row).
Proof.
  intros client req rows row H Hin.
  destruct (Loose_row_kept client req rows row H Hin) as (a & sb & rw & -> & K).
  unfold LooseSpec.keeps in K. simpl. split; [exact K |]. split; [| reflexivity].
  now apply BigNumberFacts.isGreaterThanOrEqualTo_notNaN in K.
Qed.

Lemma Loose_rows_pass_filter_witness :
  BigNumber.isGreaterThanOrEqualTo (BigNumber.Fin 20) (toBig (JString "20")) = true
  /\ notNaN (BigNumber.Fin 20)
  /\ BigNumber.Fin 21 = BigNumber.minus (BigNumber.Fin 126) (BigNumber.Fin 105).
Proof.
  refine (Loose_rows_pass_filter (Fixture.node Fixture.threeMargins) Fixture.request20 _
            (Loose.mkRow "https://defiscan.live/vaults/v1/auctions/1"
               (BigNumber.Fin 105) (BigNumber.Fin 126) (BigNumber.Fin 21)
               (BigNumber.Fin 20)) _ _).
  - vm_compute. reflexivity.
  - left. reflexivity.
Defined.

(** X19.  Every row that [src/unnamed/part_000] answers with has a margin
    at least the threshold, a difference above 1 DUSD and a starting bid
    below 8000 DUSD; its difference is its reward minus its starting bid. *)
Theorem Strict_rows_pass_filter :
  forall (client : Client) (req : Request) (rendered : list Strict.Rendered)
         (r : Strict.Rendered),
    Strict.handler client req = Json rendered -> In r rendered ->
    BigNumber.isGreaterThanOrEqualTo (Strict.renderedMargin r) (toBig (minMarginOf req))
    = true
    /\ BigNumber.isGreaterThan (Strict.renderedDiff r) (BigNumber.ofZ 1) = true
    /\ BigNumber.isLessThan (Strict.renderedMinBidDusd r) (BigNumber.ofZ 8000) = true
    /\ Strict.renderedDiff r
       = BigNumber.minus (Strict.renderedReward r) (Strict.renderedMinBidDusd r).
Proof.
  intros client req rendered r H Hin.
  destruct (Strict_row_kept client req rendered r H Hin)
    as (a & v & sb & rw & mp & Hrender & K).
  unfold Strict.render, StrictSpec.rowOf in Hrender. simpl in Hrender.
  destruct mp as [price |]; [| discriminate]. injection Hrender as <-. simpl.
  unfold StrictSpec.keeps in K.
  apply andb_true_iff in K. destruct K as [K K3].
  apply andb_true_iff in K. destruct K as [K1 K2].
  repeat split; assumption.
Qed.

Lemma Strict_rows_pass_filter_witness :
  BigNumber.isGreaterThanOrEqualTo (BigNumber.Fin 20) (toBig (JString "20")) = true
  /\ BigNumber.isGreaterThan (BigNumber.Fin 21) (BigNumber.ofZ 1) = true
  /\ BigNumber.isLessThan (BigNumber.Fin 105) (BigNumber.ofZ 8000) = true
  /\ BigNumber.Fin 21 = BigNumber.minus (BigNumber.Fin 126) (BigNumber.Fin 105).
Proof.
  refine (Strict_rows_pass_filter (Fixture.node Fixture.threeMargins) Fixture.request20 _
            (Strict.mkRendered "https://defiscan.live/vaults/v1/auctions/1"
               (BigNumber.Fin 105) (BigNumber.Fin 126) (BigNumber.Fin 21)
               (BigNumber.Fin 20) (BigNumber.Fin (6237 # 1000000)) (Some 2000000)
               (Some "BTC"%string) (JString "0.005")) _ _).
  - vm_compute. reflexivity.
  - left. reflexivity.
Defined.

(** X20.  A threshold that is not a number, such as
    [?minMarginPercentage=abc] or an empty value, is not rejected: no batch
    passes the margin test, and an answer that is not the server error is
    the empty list in both revisions. *)
Theorem threshold_NaN_empty_answer :
  forall (client : Client) (req : Request),
    toBig (minMarginOf req) = BigNumber.NaN ->
    (forall rows, Loose.handler client req = Json rows -> rows = [])
    /\ (forall rendered, Strict.handler client req = Json rendered -> rendered = []).
Proof.
  intros client req Hnan. split.
  - intros [| row rows] H; [reflexivity | exfalso].
    destruct (Loose_row_kept client req _ row H (or_introl eq_refl))
      as (a & sb & rw & _ & K).
    unfold LooseSpec.keeps in K. rewrite Hnan in K.
    apply BigNumberFacts.isGreaterThanOrEqualTo_notNaN in K. now destruct K as [_ K].
  - intros [| r rendered] H; [reflexivity | exfalso].
    destruct (Strict_row_kept client req _ r H (or_introl eq_refl))
      as (a & v & sb & rw & mp & _ & K).
    unfold StrictSpec.keeps in K.
    apply andb_true_iff in K. destruct K as [K _].
    apply andb_true_iff in K. destruct K as [K _]. rewrite Hnan in K.
    apply BigNumberFacts.isGreaterThanOrEqualTo_notNaN in K. now destruct K as [_ K].
Qed.

Lemma threshold_NaN_empty_answer_witness :
  Loose.handler (Fixture.node Fixture.threeMargins) Fixture.requestAbc = Json [].
Proof.
  destruct (Loose.handler (Fixture.node Fixture.threeMargins) Fixture.requestAbc)
    as [rows | status body] eqn:E.
  - f_equal.
    exact (proj1 (threshold_NaN_empty_answer (Fixture.node Fixture.threeMargins)
                    Fixture.requestAbc eq_refl) rows E).
  - vm_compute in E. discriminate E.
Defined.

(** X21.  An answer has at most one row for each listed batch. *)
Theorem answer_length_bound :
  forall (client : Client) (req : Request) (auctions : list Auction),
    getAvailableAuctions client (limit req) = Ok auctions ->
    (forall rows, Loose.handler client req = Json rows ->
                  (List.length rows <= List.length auctions)%nat)
    /\ (forall rendered, Strict.handler client req = Json rendered ->
                         (List.length rendered <= List.length auctions)%nat).
Proof.
  intros client req auctions Hav.
  assert (Hpushed : forall (Row : Type) (os : list (option Row)),
             (List.length (pushed os) <= List.length os)%nat).
  { intros Row os. induction os as [| [row |] os IH]; simpl; lia. }
  split.
  - intros rows H.
    apply LooseFacts.sorted_handler_Json in H.
    destruct H as (auctions' & os & Hav' & HF & ->).
    assert (auctions' = auctions) as -> by congruence.
    unfold Js.reverse. rewrite length_rev.
    rewrite <- (Permutation_length (sort_Permutation Loose.sortyByMargin (pushed os))).
    rewrite (Forall2_length HF). apply Hpushed.
  - intros rendered H.
    apply StrictFacts.handler_Json in H.
    destruct H as (auctions' & os & Hav' & HF & Hr).
    assert (auctions' = auctions) as -> by congruence.
    rewrite <- (Forall2_length Hr), (Forall2_length HF). apply Hpushed.
Qed.

Lemma answer_length_bound_witness :
  exists rows,
    Loose.handler (Fixture.node Fixture.threeMargins) Fixture.request20 = Json rows
    /\ (List.length rows <= 3)%nat.
Proof.
  eexists. split; [vm_compute; reflexivity |].
  refine (proj1 (answer_length_bound (Fixture.node Fixture.threeMargins) Fixture.request20
                   (map (mkAuction "v1") Fixture.threeMargins) _) _ _).
  - vm_compute. reflexivity.
  - vm_compute. reflexivity.
Defined.

Lemma mapThrowing_Throw {A B : Type} (f : A -> result B) (xs : list A) (x : A) (e : Error) :
  In x xs -> f x = Throw e -> exists e', mapThrowing f xs = Throw e'.
Proof.
  intros Hin Hx. destruct (mapThrowing f xs) as [ys | e'] eqn:E.
  - apply mapThrowing_Ok in E.
    destruct (Forall2_In_l E Hin) as (y & _ & Hy). congruence.
  - now exists e'.
Qed.

(** X22.  In [src/unnamed/part_000] a batch that passes the filter while
    the pool of its loan symbol with DUSD cannot be looked up makes the
    whole request fail: [getMaxPrice] has returned [null] and the final
    [map] calls [toString] on it. *)
Theorem Strict_null_maxPrice_fails_request :
  forall (client : Client) (req : Request) (auctions : list Auction) (auction : Auction)
         (vault : Vault) (startingBid reward : BigNumber.t) (e : Error),
    getAvailableAuctions client (limit req) = Ok auctions ->
    In auction auctions ->
    getVault client (auctionVaultId auction) = Ok vault ->
    let parts := Js.split "@" (loan (auctionBatch auction)) in
    Strict.getStartingBid client vault (index (auctionBatch auction))
      (part parts 0) (nth_error parts 1) = Ok startingBid ->
    getRewardPrice client (collaterals (auctionBatch auction)) = Ok reward ->
    let diff := BigNumber.minus reward startingBid in
    BigNumber.isGreaterThanOrEqualTo (marginOf diff startingBid) (toBig (minMarginOf req))
    && BigNumber.isGreaterThan diff (BigNumber.ofZ 1)
    && BigNumber.isLessThan startingBid (BigNumber.ofZ 8000) = true ->
    getPoolPair client (Js.template (nth_error parts 1) ++ "-DUSD") = Throw e ->
    Strict.handler client req = Failure 500 "Internal Server Error".
Proof.
  intros client req auctions auction vault sb rw e Hav Hin Hv parts Hsb Hrw diff K Hpool.
  subst parts diff.
  assert (Hit : Strict.iteration client req auction
                = Ok (Some (StrictSpec.rowOf auction vault sb rw None))).
  { apply StrictFacts.iteration_Ok. exists vault, sb, rw, None.
    repeat split; try assumption.
    - unfold Strict.getMaxPrice, StrictSpec.loanParts. now rewrite Hpool.
    - unfold StrictSpec.keeps. now rewrite K. }
  unfold Strict.handler, Strict.auctionRows. rewrite Hav. simpl.
  destruct (forLoop (Strict.iteration client req) auctions []) as [rows | e'] eqn:E;
    [| reflexivity].
  apply forLoop_Ok in E. destruct E as (os & HF & ->). simpl.
  destruct (Forall2_In_l HF Hin) as (o & Ho & Hit'). rewrite Hit in Hit'.
  injection Hit' as <-. apply in_pushed in Ho.
  destruct (mapThrowing_Throw Strict.render (pushed os) _
              (TypeError "Cannot read properties of null (reading 'toString')")
              Ho eq_refl) as (e' & ->).
  reflexivity.
Qed.

(** A loan in ETH, priced through DFI: the batch has a margin of 100
    percent, and the request fails because [ETH-DUSD] does not exist. *)
Lemma Strict_null_maxPrice_fails_request_witness :
  Strict.handler (Fixture.node Fixture.ethLoan) Fixture.request
  = Failure 500 "Internal Server Error".
Proof.
  refine (Strict_null_maxPrice_fails_request (Fixture.node Fixture.ethLoan)
            Fixture.request (map (mkAuction "v1") Fixture.ethLoan)
            (mkAuction "v1" (Fixture.batch 0 "10@ETH" ["63@DFI"%string]))
            (Fixture.vaultOf Fixture.ethLoan) (BigNumber.Fin 63) (BigNumber.Fin 126)
            Fixture.poolNotFound _ _ _ _ _ _ _).
  - vm_compute. reflexivity.
  - left. reflexivity.
  - vm_compute. reflexivity.
  - vm_compute. reflexivity.
  - vm_compute. reflexivity.
  - vm_compute. reflexivity.
  - vm_compute. reflexivity.
Defined.

(** ** The comparison function *)

Lemma isGreaterThan_asymmetric (x y : BigNumber.t) :
  BigNumber.isGreaterThan x y = true -> BigNumber.isGreaterThan y x = false.
Proof.
  unfold BigNumber.isGreaterThan.
  destruct x as [p | a |], y as [q | b |]; simpl; try congruence.
  - rewrite <- (Qcompare_antisym p q). destruct (p ?= q)%Q; simpl; congruence.
  - destruct b; congruence.
  - destruct a; congruence.
  - destruct a, b; congruence.
Qed.

(** X23.  [sortyByMargin] is antisymmetric, as [sort] requires of its
    comparison function: swapping its arguments negates its value; and its
    value is 0 whenever one of the margins is NaN. *)
Theorem sortyByMargin_antisymmetric :
  forall a b : Loose.Row,
    Loose.sortyByMargin a b = - Loose.sortyByMargin b a
    /\ (Loose.margin a = BigNumber.NaN \/ Loose.margin b = BigNumber.NaN ->
        Loose.sortyByMargin a b = 0).
Proof.
  intros a b. unfold Loose.sortyByMargin. split.
  - destruct (BigNumber.isGreaterThan (Loose.margin a) (Loose.margin b)) eqn:E1.
    + now rewrite (isGreaterThan_asymmetric _ _ E1).
    + destruct (BigNumber.isGreaterThan (Loose.margin b) (Loose.margin a)); reflexivity.
  - intros [H | H]; rewrite H; [| now destruct (Loose.margin a)].
    now destruct (Loose.margin b).
Qed.

Lemma sortyByMargin_antisymmetric_witness :
  Loose.sortyByMargin
    (Loose.mkRow "a" BigNumber.zero BigNumber.zero BigNumber.zero BigNumber.NaN)
    (Loose.mkRow "b" BigNumber.zero BigNumber.zero BigNumber.zero (BigNumber.Fin 5))
  = 0.
Proof.
  apply (proj2 (sortyByMargin_antisymmetric _ _)). left. reflexivity.
Defined.

(** ** A batch without collateral *)

Lemma roundQ_minus_one (y : Q) : (y == -1)%Q -> (BigNumber.roundQ y == -1)%Q.
Proof.
  intros H. unfold Qeq in H. simpl in H.
  assert (Hn : Qnum y = - Zpos (Qden y)) by lia.
  unfold BigNumber.roundQ, BigNumber.isNegQ. rewrite Hn.
  assert (Hneg : (- Zpos (Qden y) <? 0) = true) by (apply Z.ltb_lt; lia).
  rewrite Hneg. rewrite Z.abs_opp, Z.abs_eq by lia.
  set (d := Zpos (Qden y)). set (K := 10 ^ BigNumber.DECIMAL_PLACES).
  assert (Hm : (2 * (d * K) + d) / (2 * d) = K).
  { replace (2 * (d * K) + d) with (K * (2 * d) + d) by ring.
    rewrite Z.div_add_l by (unfold d; lia).
    rewrite Z.div_small by (unfold d; lia). ring. }
  rewrite Hm. unfold K. vm_compute. reflexivity.
Qed.

(** The margin of a reward of zero over a positive starting bid. *)
Lemma marginOf_no_reward (q : Q) :
  (0 < q)%Q ->
  marginOf (BigNumber.minus BigNumber.zero (BigNumber.Fin q)) (BigNumber.Fin q)
  = BigNumber.Fin (-100).
Proof.
  intros Hq.
  assert (Hx : (Qred (0 + Qred (- q)) == - q)%Q) by (rewrite !Qred_correct; ring).
  assert (Hqz : BigNumber.isZeroQ q = false).
  { apply not_true_is_false. rewrite BigNumberFacts.isZeroQ_spec.
    intros E. rewrite E in Hq. discriminate Hq. }
  assert (Hxz : BigNumber.isZeroQ (Qred (0 + Qred (- q))) = false).
  { rewrite (BigNumberFacts.isZeroQ_ext _ _ Hx).
    apply not_true_is_false. rewrite BigNumberFacts.isZeroQ_spec.
    intros E. assert (E' : (q == 0)%Q) by (rewrite <- (Qopp_involutive q), E; reflexivity).
    rewrite E' in Hq. discriminate Hq. }
  change (BigNumber.minus BigNumber.zero (BigNumber.Fin q))
    with (BigNumber.Fin (Qred (0 + Qred (- q)))).
  unfold marginOf, BigNumber.dividedBy. rewrite Hqz, Hxz.
  change (BigNumber.multipliedBy (BigNumber.fin ?x) (toBig (JNumber 100)))
    with (BigNumber.fin (Qred x * inject_Z 100)).
  change (BigNumber.Fin (-100)) with (BigNumber.fin (-100)).
  apply BigNumberFacts.fin_ext. rewrite Qred_correct.
  rewrite (roundQ_minus_one (Qred (0 + Qred (- q)) / q)).
  - reflexivity.
  - rewrite Hx. field. intros E. rewrite E in Hq. discriminate Hq.
Qed.

(** X24.  A batch without collateral has a reward of zero; over a positive
    finite starting bid its margin is minus 100 percent.  The revision that
    sorts leaves it out for every threshold above minus 100, and
    [src/unnamed/part_000] for every threshold, its difference being
    negative. *)
Theorem no_collateral_not_listed :
  forall (client : Client) (req : Request) (auction : Auction) (q : Q),
    collaterals (auctionBatch auction) = [] ->
    (0 < q)%Q ->
    (Loose.getStartingBid client auction = Ok (BigNumber.Fin q) ->
     forall m, toBig (minMarginOf req) = BigNumber.Fin m -> (-100 < m)%Q ->
       Loose.iteration client req auction = Ok None)
    /\ (forall vault,
           getVault client (auctionVaultId auction) = Ok vault ->
           let parts := Js.split "@" (loan (auctionBatch auction)) in
           Strict.getStartingBid client vault (index (auctionBatch auction))
             (part parts 0) (nth_error parts 1) = Ok (BigNumber.Fin q) ->
           Strict.iteration client req auction = Ok None).
Proof.
  intros client req auction q Hc Hq. split.
  - intros Hsb m Hm Hlt.
    apply LooseFacts.sorted_iteration_Ok. exists (BigNumber.Fin q), BigNumber.zero.
    split; [exact Hsb |]. split; [now rewrite Hc |].
    unfold LooseSpec.keeps. rewrite (marginOf_no_reward q Hq), Hm.
    destruct (BigNumber.isGreaterThanOrEqualTo (BigNumber.Fin (-100)) (BigNumber.Fin m))
      eqn:E; [| reflexivity].
    apply BigNumberFacts.ge_Fin in E. exfalso. apply (Qlt_not_le _ _ Hlt E).
  - intros vault Hv parts Hsb. subst parts.
    destruct (getMaxPrice_returns client (JBig BigNumber.zero)
                (nth_error (StrictSpec.loanParts auction) 1)) as (mp & Hmp).
    apply StrictFacts.iteration_Ok. exists vault, (BigNumber.Fin q), BigNumber.zero, mp.
    split; [exact Hv |]. split; [exact Hsb |]. split; [now rewrite Hc |].
    split; [exact Hmp |].
    assert (Hdiff : BigNumber.isGreaterThan
                      (BigNumber.minus BigNumber.zero (BigNumber.Fin q)) (BigNumber.ofZ 1)
                    = false).
    { change (BigNumber.minus BigNumber.zero (BigNumber.Fin q))
        with (BigNumber.Fin (Qred (0 + Qred (- q)))).
      unfold BigNumber.isGreaterThan, BigNumber.comparedTo, BigNumber.ofZ.
      destruct (Qred (0 + Qred (- q)) ?= inject_Z 1)%Q eqn:E; try reflexivity.
      exfalso. apply Qgt_alt in E. rewrite !Qred_correct in E.
      assert (H1 : (0 + - q < 0)%Q).
      { rewrite Qplus_0_l. apply Qopp_lt_compat in Hq. exact Hq. }
      apply (Qlt_irrefl 0). apply Qlt_trans with (inject_Z 1); [reflexivity |].
      apply Qlt_trans with (0 + - q)%Q; assumption. }
    unfold StrictSpec.keeps. rewrite Hdiff. rewrite andb_false_r. reflexivity.
Qed.

(** A loan of 0.005 BTC without collateral is listed by neither revision. *)
Lemma no_collateral_not_listed_witness :
  Loose.iteration (Fixture.node Fixture.noCollateral) Fixture.request
    (mkAuction "v1" (Fixture.batch 0 "0.005@BTC" [])) = Ok None
  /\ Strict.iteration (Fixture.node Fixture.noCollateral) Fixture.request
       (mkAuction "v1" (Fixture.batch 0 "0.005@BTC" [])) = Ok None.
Proof.
  pose proof (no_collateral_not_listed (Fixture.node Fixture.noCollateral) Fixture.request
                (mkAuction "v1" (Fixture.batch 0 "0.005@BTC" [])) 105 eq_refl eq_refl)
    as [HL HS].
  split.
  - refine (HL _ 0%Q _ _).
    + vm_compute. reflexivity.
    + reflexivity.
    + reflexivity.
  - refine (HS (Fixture.vaultOf Fixture.noCollateral) _ _).
    + reflexivity.
    + vm_compute. reflexivity.
Defined.

(** ** The two revisions on one request *)

Lemma Strict_iteration_Loose (client : Client) (req : Request) (auction : Auction)
    (o : option Strict.Row) :
  Strict.iteration client req auction = Ok o ->
  exists o' : option Loose.Row,
    Loose.iteration client req auction = Ok o'
    /\ forall row, o = Some row ->
         o' = Some (Loose.mkRow (Strict.url row) (Strict.minBidDusd row)
                      (Strict.reward row) (Strict.diff row) (Strict.margin row)).
Proof.
  intros H. apply StrictFacts.iteration_Ok in H.
  destruct H as (v & sb & rw & mp & Hv & Hsb & Hrw & _ & ->).
  exists (if LooseSpec.keeps req sb rw
          then Some (LooseSpec.rowOf auction sb rw) else None).
  split.
  - apply LooseFacts.sorted_iteration_Ok. exists sb, rw.
    split; [| split; [exact Hrw | reflexivity]].
    unfold Loose.getStartingBid, Loose.getHighestBidSoFar. rewrite Hv. exact Hsb.
  - intros row Hrow. unfold StrictSpec.keeps in Hrow. unfold LooseSpec.keeps.
    destruct (BigNumber.isGreaterThanOrEqualTo _ _); [| discriminate].
    destruct (_ && _); [| discriminate].
    injection Hrow as <-. reflexivity.
Qed.

(** X25.  Whenever [src/unnamed/part_000] answers with a list, the revision
    that sorts answers with a list too on the same node and request, and
    every row of the first is, with its address, starting bid, reward,
    difference and margin, a row of the second. *)
Theorem Strict_answer_within_Loose_answer :
  forall (client : Client) (req : Request) (rendered : list Strict.Rendered),
    Strict.handler client req = Json rendered ->
    exists rows,
      Loose.handler client req = Json rows
      /\ forall r, In r rendered -> In (looseRowOf r) rows.
Proof.
  intros client req rendered H.
  apply StrictFacts.handler_Json in H. destruct H as (auctions & os & Hav & HF & Hr).
  assert (Hos : exists os' : list (option Loose.Row),
             Forall2 (fun a o' => Loose.iteration client req a = Ok o') auctions os'
             /\ Forall2 (fun o o' => forall row, o = Some row ->
                           o' = Some (Loose.mkRow (Strict.url row) (Strict.minBidDusd row)
                                        (Strict.reward row) (Strict.diff row)
                                        (Strict.margin row))) os os').
  { clear Hr Hav. induction HF as [| a o auctions os Ho HF IH].
    - exists []. split; constructor.
    - destruct IH as (os' & H1 & H2).
      destruct (Strict_iteration_Loose client req a o Ho) as (o' & Ho' & Hrel).
      exists (o' :: os'). split; constructor; assumption. }
  destruct Hos as (os' & HF' & Hrel).
  exists (Js.reverse (Js.sort Loose.sortyByMargin (pushed os'))). split.
  - apply LooseFacts.sorted_handler_Json. now exists auctions, os'.
  - intros r Hin. apply LooseFacts.sorted_handler_In.
    destruct (Forall2_In_r Hr Hin) as (row & Hpushed & Hrender).
    apply in_pushed in Hpushed.
    destruct (Forall2_In_l Hrel Hpushed) as (o' & Ho' & Hrow).
    rewrite (Hrow row eq_refl) in Ho'.
    unfold Strict.render in Hrender.
    destruct (Strict.maxPrice row) as [price |]; [| discriminate].
    injection Hrender as <-. exact Ho'.
Qed.

Lemma Strict_answer_within_Loose_answer_witness :
  exists rows,
    Loose.handler (Fixture.node Fixture.threeMargins) Fixture.request20 = Json rows
    /\ forall r,
         In r [Strict.mkRendered "https://defiscan.live/vaults/v1/auctions/1"
                 (BigNumber.Fin 105) (BigNumber.Fin 126) (BigNumber.Fin 21)
                 (BigNumber.Fin 20) (BigNumber.Fin (6237 # 1000000)) (Some 2000000)
                 (Some "BTC"%string) (JString "0.005")] ->
         In (looseRowOf r) rows.
Proof.
  apply (Strict_answer_within_Loose_answer (Fixture.node Fixture.threeMargins)
           Fixture.request20).
  vm_compute. reflexivity.
Defined.

(** ** The order of the collaterals *)

Lemma fold_left_Permutation {A B : Type} (f : A -> B -> A) (l l' : list B) :
  (forall a x y, f (f a x) y = f (f a y) x) ->
  Permutation l l' -> forall a, fold_left f l a = fold_left f l' a.
Proof.
  intros Hf HP. induction HP as [| x l l' HP IH | x y l | l1 l2 l3 H12 IH12 H23 IH23];
    intros a; simpl.
  - reflexivity.
  - apply IH.
  - now rewrite Hf.
  - now rewrite IH12.
Qed.

(** The price or [null] of a collateral whose conversion does not throw. *)
Lemma promiseAll_no_throw (client : Client) (collaterals : list string) :
  Forall (fun c => exists p, collateralPrice client c = Ok p) collaterals ->
  promiseAll (map (collateralPrice client) collaterals)
  = Ok (map (fun c => match collateralPrice client c with
                      | Ok p => p
                      | Throw _ => None
                      end) collaterals).
Proof.
  intros H. apply promiseAll_Ok.
  induction H as [| c cs (p & Hc) _ IH]; simpl; constructor.
  - now rewrite Hc.
  - exact IH.
Qed.

(** X26.  The reward does not depend on the order of the collaterals: when
    no conversion throws, [getRewardPrice] gives the same result on every
    rearrangement of the list. *)
Theorem getRewardPrice_order_irrelevant :
  forall (client : Client) (collaterals collaterals' : list string),
    Permutation collaterals collaterals' ->
    Forall (fun c => exists p, collateralPrice client c = Ok p) collaterals ->
    getRewardPrice client collaterals = getRewardPrice client collaterals'.
Proof.
  intros client l l' HP HF.
  assert (HF' : Forall (fun c => exists p, collateralPrice client c = Ok p) l')
    by (eapply Permutation_Forall; eassumption).
  unfold getRewardPrice.
  rewrite (promiseAll_no_throw client l HF), (promiseAll_no_throw client l' HF').
  simpl. f_equal. apply fold_left_Permutation.
  - intros a x y.
    rewrite <- !BigNumberFacts.plus_assoc.
    now rewrite (BigNumberFacts.plus_comm (toBig (priceValue x))).
  - now apply Permutation_map.
Qed.

Lemma getRewardPrice_order_irrelevant_witness :
  getRewardPrice (Fixture.node []) ["63@DFI"; "1@DOGE"; "58.8@DFI"]%string
  = getRewardPrice (Fixture.node []) ["1@DOGE"; "58.8@DFI"; "63@DFI"]%string.
Proof.
  apply getRewardPrice_order_irrelevant.
  - apply Permutation_cons_append with (l := ["1@DOGE"; "58.8@DFI"]%string).
  - repeat constructor; eexists; vm_compute; reflexivity.
Defined.

(** ** A collateral without price *)

Lemma getRewardPrice_null_NaN (client : Client) (collaterals : list string) :
  Exists (fun c => collateralPrice client c = Ok None) collaterals ->
  Forall (fun c => exists p, collateralPrice client c = Ok p) collaterals ->
  getRewardPrice client collaterals = Ok BigNumber.NaN.
Proof.
  intros Hnull Hall. unfold getRewardPrice.
  rewrite (promiseAll_no_throw client collaterals Hall). simpl. f_equal.
  apply sumPrices_null. apply Exists_exists in Hnull. destruct Hnull as (c & Hin & Hc).
  apply in_map_iff. exists c. split; [now rewrite Hc | exact Hin].
Qed.

(** X27.  A batch one of whose collaterals is priced [null], while no
    conversion throws, is left out by both revisions whatever its loan and
    the threshold are, and the loop goes on: the reward is NaN, and no
    comparison with NaN holds. *)
Theorem unpriced_collateral_skips_batch :
  forall (client : Client) (req : Request) (auction : Auction) (startingBid : BigNumber.t),
    Exists (fun c => collateralPrice client c = Ok None)
      (collaterals (auctionBatch auction)) ->
    Forall (fun c => exists p, collateralPrice client c = Ok p)
      (collaterals (auctionBatch auction)) ->
    (Loose.getStartingBid client auction = Ok startingBid ->
     Loose.iteration client req auction = Ok None)
    /\ (forall vault,
           getVault client (auctionVaultId auction) = Ok vault ->
           let parts := Js.split "@" (loan (auctionBatch auction)) in
           Strict.getStartingBid client vault (index (auctionBatch auction))
             (part parts 0) (nth_error parts 1) = Ok startingBid ->
           Strict.iteration client req auction = Ok None).
Proof.
  intros client req auction sb Hnull Hall.
  pose proof (getRewardPrice_null_NaN client _ Hnull Hall) as Hrw. split.
  - intros Hsb. apply LooseFacts.sorted_iteration_Ok. exists sb, BigNumber.NaN.
    split; [exact Hsb |]. split; [exact Hrw | reflexivity].
  - intros vault Hv parts Hsb. subst parts.
    destruct (getMaxPrice_returns client (JBig BigNumber.NaN)
                (nth_error (StrictSpec.loanParts auction) 1)) as (mp & Hmp).
    apply StrictFacts.iteration_Ok. exists vault, sb, BigNumber.NaN, mp.
    split; [exact Hv |]. split; [exact Hsb |]. split; [exact Hrw |].
    split; [exact Hmp | reflexivity].
Qed.

Lemma unpriced_collateral_skips_batch_witness :
  Loose.iteration (Fixture.node Fixture.brokenCollateralFirst) Fixture.request
    (mkAuction "v1" (Fixture.batch 0 "0.005@BTC" ["63@DFI"; "1000@DOGE"]%string))
  = Ok None.
Proof.
  refine (proj1 (unpriced_collateral_skips_batch
                   (Fixture.node Fixture.brokenCollateralFirst) Fixture.request
                   (mkAuction "v1"
                      (Fixture.batch 0 "0.005@BTC" ["63@DFI"; "1000@DOGE"]%string))
                   (BigNumber.Fin 105) _ _) _).
  - right. left. vm_compute. reflexivity.
  - repeat constructor; eexists; vm_compute; reflexivity.
  - vm_compute. reflexivity.
Defined.

(** ** Rows and listed batches *)

(** X28.  An answer has no row of its own making: the address of every row
    is the address of a batch of the auction list, in both revisions. *)
Theorem rows_are_listed_batches :
  forall (client : Client) (req : Request) (auctions : list Auction),
    getAvailableAuctions client (limit req) = Ok auctions ->
    (forall rows row,
        Loose.handler client req = Json rows -> In row rows ->
        exists a, In a auctions
                  /\ Loose.url row
                     = auctionUrl (auctionVaultId a) (index (auctionBatch a)))
    /\ (forall rendered r,
           Strict.handler client req = Json rendered -> In r rendered ->
           exists a, In a auctions
                     /\ Strict.renderedUrl r
                        = auctionUrl (auctionVaultId a) (index (auctionBatch a))).
Proof.
  intros client req auctions Hav. split.
  - intros rows row H Hin.
    apply LooseFacts.sorted_handler_Json in H.
    destruct H as (auctions' & os & Hav' & HF & ->).
    assert (auctions' = auctions) as -> by congruence.
    apply LooseFacts.sorted_handler_In in Hin.
    destruct (Forall2_In_r HF Hin) as (a & Ha & Hit).
    apply LooseFacts.sorted_iteration_Ok in Hit.
    destruct Hit as (sb & rw & _ & _ & Heq).
    destruct (LooseSpec.keeps req sb rw); [| discriminate].
    injection Heq as ->. now exists a.
  - intros rendered r H Hin.
    apply StrictFacts.handler_Json in H.
    destruct H as (auctions' & os & Hav' & HF & Hr).
    assert (auctions' = auctions) as -> by congruence.
    destruct (Forall2_In_r Hr Hin) as (row & Hpushed & Hrender).
    apply in_pushed in Hpushed.
    destruct (Forall2_In_r HF Hpushed) as (a & Ha & Hit).
    apply StrictFacts.iteration_Ok in Hit.
    destruct Hit as (v & sb & rw & mp & _ & _ & _ & _ & Heq).
    destruct (StrictSpec.keeps req sb rw); [| discriminate].
    injection Heq as ->. unfold Strict.render, StrictSpec.rowOf in Hrender.
    simpl in Hrender. destruct mp as [price |]; [| discriminate].
    injection Hrender as <-. now exists a.
Qed.

Lemma rows_are_listed_batches_witness :
  exists a,
    In a (map (mkAuction "v1") Fixture.threeMargins)
    /\ "https://defiscan.live/vaults/v1/auctions/1"%string
       = auctionUrl (auctionVaultId a) (index (auctionBatch a)).
Proof.
  refine (proj1 (rows_are_listed_batches (Fixture.node Fixture.threeMargins)
                   Fixture.request20 (map (mkAuction "v1") Fixture.threeMargins) _)
            _ (Loose.mkRow "https://defiscan.live/vaults/v1/auctions/1"
                 (BigNumber.Fin 105) (BigNumber.Fin 126) (BigNumber.Fin 21)
                 (BigNumber.Fin 20)) _ _).
  - vm_compute. reflexivity.
  - vm_compute. reflexivity.
  - left. reflexivity.
Defined.
